(** * DataTypeDynamic: declaration and subcolumn resolution

    A shallow embedding of [src/DataTypes/DataTypeDynamic.cpp]:

    - the type descriptor [DataTypeDynamic], its printed name [doGetName]
      and the factory creator [create] that validates [Dynamic(max_types=N)];
    - the subcolumn resolver [getDynamicSubcolumnData].

    The translation unit calls into many classes that live elsewhere
    (the type factory, the path splitter, the generic nested resolver, the
    Variant column, the subcolumn creators).  They are collected in the record
    [Collaborators] and every statement about the resolver is made for an
    arbitrary value of that record. *)

From Stdlib Require Import ZArith NArith Ascii String List DecimalString.
From Stdlib Require Numbers.DecimalN.
From stdpp Require Import base option list strings gmap.

Set Warnings "-register-all".

Local Open Scope string_scope.
Local Open Scope N_scope.

(** ** Outcomes of a call

    A C++ call either returns, throws an [Exception] carrying an error code,
    or has undefined behaviour (a null pointer dereferenced, a vector indexed
    out of range, a failed [assert_cast] in a release build). *)

Inductive ErrorCode :=
| ILLEGAL_COLUMN
| NUMBER_OF_ARGUMENTS_DOESNT_MATCH
| UNEXPECTED_AST_STRUCTURE
| BAD_GET
| OtherErrorCode (code : Z).

Inductive Result (A : Type) :=
| Ok (a : A)
| Throw (code : ErrorCode)
| Undefined.

Arguments Ok {A} a.
Arguments Throw {A} code.
Arguments Undefined {A}.

Definition bind {A B} (r : Result A) (k : A -> Result B) : Result B :=
  match r with
  | Ok a => k a
  | Throw code => Throw code
  | Undefined => Undefined
  end.

Notation "x <- r ;; k" := (bind r (fun x => k))
  (at level 100, r at next level, right associativity).

(** Dereferencing a pointer that may be null. *)
Definition deref {A} (p : option A) : Result A :=
  match p with
  | Some a => Ok a
  | None => Undefined
  end.

(** [v[i]] on a [std::vector]: undefined out of range. *)
Definition at_index {A} (v : list A) (i : nat) : Result A := deref (v !! i).

(** ** Field: the dynamically typed scalar of [Core/Field.h]

    [UInt64] payloads are natural numbers below [2^64]; the code under study
    only compares them, so no wrap-around arises. [Float64] carries the bit
    pattern of the double. *)

Module Types.
Inductive Which := Null | UInt64 | Int64 | Float64 | String | Array.

Definition eqb (a b : Which) : bool :=
  match a, b with
  | Null, Null | UInt64, UInt64 | Int64, Int64
  | Float64, Float64 | String, String | Array, Array => true
  | _, _ => false
  end.
End Types.

Inductive Field :=
| FieldNull
| FieldUInt64 (x : N)
| FieldInt64 (x : Z)
| FieldFloat64 (bits : Z)
| FieldString (s : string)
| FieldArray (xs : list Field).

Definition getType (f : Field) : Types.Which :=
  match f with
  | FieldNull => Types.Null
  | FieldUInt64 _ => Types.UInt64
  | FieldInt64 _ => Types.Int64
  | FieldFloat64 _ => Types.Float64
  | FieldString _ => Types.String
  | FieldArray _ => Types.Array
  end.

(** [safeGet<UInt64>()] throws on a field of another type. *)
Definition safeGet_UInt64 (f : Field) : Result N :=
  match f with
  | FieldUInt64 x => Ok x
  | _ => Throw BAD_GET
  end.

(** ** The syntax tree handed to the creator ([Parsers/IAST.h])

    Every node has [children]; [as<T>()] is a checked downcast that yields a
    null pointer on a node of another class. *)

Inductive IAST :=
| ASTExpressionList (elements : list IAST)
| ASTFunction (name : string) (arguments : option IAST)
| ASTIdentifier (full_name : string)
| ASTLiteral (value : Field)
| ASTOther (id : string) (subtrees : list IAST).

Definition ASTPtr := option IAST.

Definition children (a : IAST) : list IAST :=
  match a with
  | ASTExpressionList l => l
  | ASTFunction _ (Some args) => [args]
  | ASTFunction _ None => []
  | ASTIdentifier _ => []
  | ASTLiteral _ => []
  | ASTOther _ l => l
  end.

Definition as_ASTFunction (a : IAST) : option (string * ASTPtr) :=
  match a with
  | ASTFunction name args => Some (name, args)
  | _ => None
  end.

Definition as_ASTIdentifier (a : IAST) : option string :=
  match a with
  | ASTIdentifier n => Some n
  | _ => None
  end.

Definition as_ASTLiteral (a : IAST) : option Field :=
  match a with
  | ASTLiteral v => Some v
  | _ => None
  end.

(** ** The type descriptor *)

Record DataTypeDynamic := { max_dynamic_types : N }.

(** [ColumnVariant::MAX_NESTED_COLUMNS] is declared in [Columns/ColumnVariant.h];
    its value is the one the message on line 75 of the source spells out
    ("a positive integer between 1 and 255"). *)
Definition MAX_NESTED_COLUMNS : N := 255.

(** [toString] of an unsigned integer: its decimal digits. *)
Definition toString (n : N) : string := NilZero.string_of_uint (N.to_uint n).

(** [DataTypeDynamic::getDefault]. *)
Definition DataTypeDynamic_getDefault (t : DataTypeDynamic) : Field := FieldNull.

Section Declaration.

(** [DataTypeDynamic::DEFAULT_MAX_DYNAMIC_TYPES] is declared in the header,
    which is not part of the sources at hand: it stays a parameter. *)
Variable DEFAULT_MAX_DYNAMIC_TYPES : N.

(** [std::make_shared<DataTypeDynamic>()]: the constructor's default
    argument. *)
Definition make_default : DataTypeDynamic :=
  {| max_dynamic_types := DEFAULT_MAX_DYNAMIC_TYPES |}.

(** [DataTypeDynamic::doGetName], lines 37-42. *)
Definition doGetName (t : DataTypeDynamic) : string :=
  if max_dynamic_types t =? DEFAULT_MAX_DYNAMIC_TYPES
  then "Dynamic"
  else "Dynamic(max_types=" +:+ toString (max_dynamic_types t) +:+ ")".

(** The checks of lines 72-77 on the right-hand side of the equality. *)
Definition create_from_literal (rhs : IAST) : Result DataTypeDynamic :=
  match as_ASTLiteral rhs with
  | None => Throw UNEXPECTED_AST_STRUCTURE
  | Some value =>
      if negb (Types.eqb (getType value) Types.UInt64)
      then Throw UNEXPECTED_AST_STRUCTURE
      else
        v <- safeGet_UInt64 value ;;
        if (v =? 0) || (MAX_NESTED_COLUMNS <? v)
        then Throw UNEXPECTED_AST_STRUCTURE
        else Ok {| max_dynamic_types := v |}
  end.

(** The static function [create], lines 54-78. *)
Definition create (arguments : ASTPtr) : Result DataTypeDynamic :=
  match arguments with
  | None => Ok make_default
  | Some args =>
      match children args with
      | [] => Ok make_default
      | _ :: _ :: _ => Throw NUMBER_OF_ARGUMENTS_DOESNT_MATCH
      | [child] =>
          match as_ASTFunction child with
          | None => Throw UNEXPECTED_AST_STRUCTURE
          | Some (name, fn_arguments) =>
              if negb (String.eqb name "equals")
              then Throw UNEXPECTED_AST_STRUCTURE
              else
                operands <- deref fn_arguments ;;
                lhs <- at_index (children operands) 0 ;;
                identifier_name <- deref (as_ASTIdentifier lhs) ;;
                if negb (String.eqb identifier_name "max_types")
                then Throw UNEXPECTED_AST_STRUCTURE
                else
                  rhs <- at_index (children operands) 1 ;;
                  create_from_literal rhs
          end
      end
  end.

End Declaration.

(** The argument list [ident = rhs] as the parser builds it:
    one [equals] function over two operands. *)
Definition equality (lhs rhs : IAST) : IAST :=
  ASTFunction "equals" (Some (ASTExpressionList [lhs; rhs])).

Definition max_types_equals (n : N) : ASTPtr :=
  Some (ASTExpressionList
          [equality (ASTIdentifier "max_types") (ASTLiteral (FieldUInt64 n))]).

(** ** Reading a declaration back

    Small scanners over strings, used by the declaration reader below. *)

Definition is_digit (c : ascii) : bool :=
  let n := N_of_ascii c in (48 <=? n) && (n <=? 57).

Definition is_space (c : ascii) : bool := N_of_ascii c =? 32.

Definition is_word_char (c : ascii) : bool :=
  let n := N_of_ascii c in
  ((97 <=? n) && (n <=? 122)) || ((65 <=? n) && (n <=? 90))
  || (n =? 95) || is_digit c.

Fixpoint span (p : ascii -> bool) (s : string) : string * string :=
  match s with
  | String c rest =>
      if p c then let '(taken, remaining) := span p rest in (String c taken, remaining)
      else ("", s)
  | EmptyString => ("", "")
  end.

Definition skip_spaces (s : string) : string := snd (span is_space s).

Fixpoint all_chars (p : ascii -> bool) (s : string) : bool :=
  match s with
  | String c rest => p c && all_chars p rest
  | EmptyString => true
  end.

Fixpoint strip_prefix (prefix s : string) : option string :=
  match prefix, s with
  | EmptyString, _ => Some s
  | String a prefix', String b s' =>
      if Ascii.eqb a b then strip_prefix prefix' s' else None
  | String _ _, EmptyString => None
  end.

(** Modelled from the spec: the declaration parser ([ParserDataType] and the
    dispatch of [DataTypeFactory::get] to the creator registered on line 82)
    is not part of the sources.  The spec gives the grammar it accepts for
    this type: [Dynamic] or [Dynamic(max_types = N)], [N] an integer literal.
    An argument [ident = N] becomes the function [equals] over an identifier
    and an unsigned literal; a bare [Dynamic] reaches the creator with a null
    argument list. *)
Definition parseDynamicArgument (s : string) : option IAST :=
  let '(ident, s) := span is_word_char (skip_spaces s) in
  match ident, skip_spaces s with
  | String _ _, String c s =>
      if Ascii.eqb c "=" then
        let '(digits, s) := span is_digit (skip_spaces s) in
        match NilZero.uint_of_string digits with
        | Some d =>
            if String.eqb (skip_spaces s) ")"
            then Some (equality (ASTIdentifier ident)
                                (ASTLiteral (FieldUInt64 (N.of_uint d))))
            else None
        | None => None
        end
      else None
  | _, _ => None
  end.

(** Modelled from the spec: the whole declaration, [Dynamic] followed by
    nothing or by one parenthesised argument; the result is the argument list
    the factory hands to [create]. *)
Definition parseDeclaration (full_name : string) : option ASTPtr :=
  match strip_prefix "Dynamic" full_name with
  | Some EmptyString => Some None
  | Some (String c rest) =>
      if Ascii.eqb c "("
      then a ← parseDynamicArgument rest; Some (Some (ASTExpressionList [a]))
      else None
  | None => None
  end.

(** ** Serializations, types and columns seen by the resolver *)

(** Serializations are built elsewhere; the only one constructed in this
    translation unit is [SerializationDynamicElement] (line 128). *)
Inductive ISerialization :=
| SerializationOf (description : string)
| SerializationDynamicElement (nested : ISerialization)
    (dynamic_element_name : string) (is_null_map_subcolumn : bool).

(** A type descriptor, as far as this translation unit observes it: the
    results of the virtual methods it calls.  [getDefault] is the value that
    [insertDefault] stores in a column of the type. *)
Record IDataType := {
  getName : string;
  canBeInsideNullable : bool;
  lowCardinality : bool;
  getDefault : Field;
  getDefaultSerialization : ISerialization;
}.

(** Modelled from the spec: [DataTypeUInt8] comes from [DataTypesNumber.h],
    which is not part of the sources; the spec calls it "the null-map's
    native representation (1-byte unsigned integer)". *)
Definition DataTypeUInt8 : IDataType := {|
  getName := "UInt8";
  canBeInsideNullable := true;
  lowCardinality := false;
  getDefault := FieldUInt64 0;
  getDefaultSerialization := SerializationOf "SerializationNumber<UInt8>";
|}.

(** A column other than a Dynamic one: its values, and the value that
    [insertDefault] appends. *)
Record Column := {
  default_value : Field;
  values : list Field;
}.

Definition createColumn (t : IDataType) : Column :=
  {| default_value := getDefault t; values := [] |}.

Definition insertManyDefaults (c : Column) (length : nat) : Column :=
  {| default_value := default_value c;
     values := values c ++ replicate length (default_value c) |}.

(** [ColumnUInt8::create()] and [getData().resize_fill(n, x)]. *)
Definition ColumnUInt8_create : Column :=
  {| default_value := FieldUInt64 0; values := [] |}.

Definition resize_fill (c : Column) (n : nat) (x : Field) : Column :=
  {| default_value := default_value c;
     values := take n (values c) ++ replicate (n - length (values c)) x |}.

(** [ColumnVariant::Discriminator] is a [UInt8]. *)
Definition Discriminator := N.

(** The Variant column behind a Dynamic column, through the accessors the
    resolver calls. The per-row array has one local discriminator per row. *)
Record ColumnVariant := {
  getLocalDiscriminatorsPtr : list Discriminator;
  localDiscriminatorByGlobal : Discriminator -> Discriminator;
  getVariantPtrByGlobalDiscriminator : Discriminator -> Column;
}.

Record VariantInfo := {
  variant_name_to_discriminator : gmap string Discriminator;
}.

Record ColumnDynamic := {
  getVariantInfo : VariantInfo;
  getVariantColumn : ColumnVariant;
}.

Inductive IColumn :=
| ColumnPlain (c : Column)
| ColumnOfDynamic (d : ColumnDynamic).

(** A [ColumnPtr] may be null. *)
Definition ColumnPtr := option IColumn.

(** [IColumn::size]: the number of rows. *)
Definition size (c : IColumn) : nat :=
  match c with
  | ColumnPlain c => length (values c)
  | ColumnOfDynamic d => length (getLocalDiscriminatorsPtr (getVariantColumn d))
  end.

(** [assert_cast<const ColumnDynamic &>]: undefined on any other column. *)
Definition assert_cast_ColumnDynamic (c : IColumn) : Result ColumnDynamic :=
  match c with
  | ColumnOfDynamic d => Ok d
  | ColumnPlain _ => Undefined
  end.

(** [IDataType::SubstreamData]. The resolver always holds a type in it
    (line 98), so [type] is not a nullable pointer here. *)
Record SubstreamData := {
  serialization : ISerialization;
  type : IDataType;
  column : ColumnPtr;
}.

Definition set_serialization (s : ISerialization) (d : SubstreamData) :=
  {| serialization := s; type := type d; column := column d |}.
Definition set_type (t : IDataType) (d : SubstreamData) :=
  {| serialization := serialization d; type := t; column := column d |}.
Definition set_column (c : ColumnPtr) (d : SubstreamData) :=
  {| serialization := serialization d; type := type d; column := c |}.

(** [ISerialization::ISubcolumnCreator], restricted to columns. *)
Record ISubcolumnCreator := {
  create_column : ColumnPtr -> Result ColumnPtr;
}.

(** ** Collaborators

    Everything the resolver calls that is defined in another translation
    unit.  Calls that can throw return a [Result]. *)
Record Collaborators := {
  (** [Nested::splitName] *)
  splitName : string -> string * string;
  (** [DataTypeFactory::instance().tryGet] *)
  tryGet : string -> option IDataType;
  (** [IDataType::getSubcolumnData], the generic nested resolver *)
  getSubcolumnData : string -> SubstreamData -> bool -> Result (option SubstreamData);
  (** [makeNullableOrLowCardinalityNullableSafe] on types *)
  makeNullableOrLowCardinalityNullableSafe : IDataType -> IDataType;
  (** [SerializationVariantElementNullMap::VariantNullMapSubcolumnCreator] *)
  VariantNullMapSubcolumnCreator :
    list Discriminator -> string -> Discriminator -> Discriminator -> ISubcolumnCreator;
  (** [SerializationVariantElement::VariantSubcolumnCreator] *)
  VariantSubcolumnCreator :
    list Discriminator -> string -> Discriminator -> Discriminator -> bool -> ISubcolumnCreator;
}.

(** ** The resolver *)

Section Resolver.

Variable E : Collaborators.

(** Lines 97-112: the tentative descriptor, and the discriminator when the
    instance has a variant of the requested type. *)
Definition tentative (subcolumn_type : IDataType) (data : SubstreamData)
  : Result (option Discriminator * SubstreamData) :=
  let res := {| serialization := getDefaultSerialization subcolumn_type;
                type := subcolumn_type;
                column := None |} in
  match column data with
  | None => Ok (None, res)
  | Some c =>
      dynamic_column <- assert_cast_ColumnDynamic c ;;
      match variant_name_to_discriminator (getVariantInfo dynamic_column)
              !! getName subcolumn_type with
      | Some discriminator =>
          Ok (Some discriminator,
              set_column
                (Some (ColumnPlain
                         (getVariantPtrByGlobalDiscriminator
                            (getVariantColumn dynamic_column) discriminator)))
                res)
      | None => Ok (None, res)
      end
  end.

(** Lines 114-126: the null map is answered on the spot, any other
    non-empty remainder goes to the generic resolver. *)
Definition descend (subcolumn_nested_name : string) (res : SubstreamData)
    (throw_if_null : bool) : Result (option SubstreamData) :=
  if String.eqb subcolumn_nested_name "null"
  then Ok (Some (set_type DataTypeUInt8 res))
  else if negb (String.eqb subcolumn_nested_name "")
  then getSubcolumnData E subcolumn_nested_name res throw_if_null
  else Ok (Some res).

(** Lines 134-171: the column of the result. *)
Definition materialize (data : SubstreamData)
    (discriminator : option Discriminator) (is_null_map_subcolumn : bool)
    (make_subcolumn_nullable : bool) (res : SubstreamData)
  : Result SubstreamData :=
  match column data with
  | None => Ok res
  | Some c =>
      match discriminator with
      | Some discriminator =>
          dynamic_column <- assert_cast_ColumnDynamic c ;;
          let variant_column := getVariantColumn dynamic_column in
          let creator :=
            if is_null_map_subcolumn
            then VariantNullMapSubcolumnCreator E
                   (getLocalDiscriminatorsPtr variant_column) ""
                   discriminator
                   (localDiscriminatorByGlobal variant_column discriminator)
            else VariantSubcolumnCreator E
                   (getLocalDiscriminatorsPtr variant_column) ""
                   discriminator
                   (localDiscriminatorByGlobal variant_column discriminator)
                   make_subcolumn_nullable in
          created <- create_column creator (column res) ;;
          Ok (set_column created res)
      | None =>
          if is_null_map_subcolumn
          then
            let column := resize_fill ColumnUInt8_create (size c) (FieldUInt64 1) in
            Ok (set_column (Some (ColumnPlain column)) res)
          else
            let column := insertManyDefaults (createColumn (type res)) (size c) in
            Ok (set_column (Some (ColumnPlain column)) res)
      end
  end.

(** [DataTypeDynamic::getDynamicSubcolumnData], lines 85-174.  A null
    [unique_ptr] result is [None]. *)
Definition getDynamicSubcolumnData (subcolumn_name : string)
    (data : SubstreamData) (throw_if_null : bool)
  : Result (option SubstreamData) :=
  let '(subcolumn_type_name, subcolumn_nested_name) := splitName E subcolumn_name in
  match tryGet E subcolumn_type_name with
  | None => if throw_if_null then Throw ILLEGAL_COLUMN else Ok None
  | Some subcolumn_type =>
      found <- tentative subcolumn_type data ;;
      let '(discriminator, res) := found in
      let is_null_map_subcolumn := String.eqb subcolumn_nested_name "null" in
      res <- descend subcolumn_nested_name res throw_if_null ;;
      match res with
      | None => Ok None
      | Some res =>
          let res :=
            set_serialization
              (SerializationDynamicElement (serialization res)
                 (getName subcolumn_type) is_null_map_subcolumn) res in
          let make_subcolumn_nullable :=
            canBeInsideNullable subcolumn_type || lowCardinality subcolumn_type in
          let res :=
            if negb is_null_map_subcolumn && make_subcolumn_nullable
            then set_type (makeNullableOrLowCardinalityNullableSafe E (type res)) res
            else res in
          res <- materialize data discriminator is_null_map_subcolumn
                   make_subcolumn_nullable res ;;
          Ok (Some res)
      end
  end.

End Resolver.

(** ** A concrete set of collaborators

    A small registry and a five-row instance, used to run the resolver:
    the instance has observed [Int64] and [String] only. *)

Module Demo.

(** Modelled from the spec: [Nested::splitName] is not part of the sources;
    the spec says it "splits "A.B.C" into head "A" and remainder "B.C"",
    the remainder being empty when there is no dot. *)
Fixpoint split_at_first_dot (name : string) : string * string :=
  match name with
  | EmptyString => ("", "")
  | String c rest =>
      if Ascii.eqb c "."
      then ("", rest)
      else let '(head, tail) := split_at_first_dot rest in (String c head, tail)
  end.

(** A scalar type: it can be inside Nullable and is not low-cardinality. *)
Definition scalar (name : string) (default : Field) : IDataType := {|
  getName := name;
  canBeInsideNullable := true;
  lowCardinality := false;
  getDefault := default;
  getDefaultSerialization := SerializationOf ("Serialization(" +:+ name +:+ ")");
|}.

Definition DataTypeUInt64 := scalar "UInt64" (FieldUInt64 0).
Definition DataTypeInt64 := scalar "Int64" (FieldInt64 0).
Definition DataTypeFloat64 := scalar "Float64" (FieldFloat64 0).
Definition DataTypeString := scalar "String" (FieldString "").

(** Arrays cannot be inside Nullable. *)
Definition DataTypeArrayOfString : IDataType := {|
  getName := "Array(String)";
  canBeInsideNullable := false;
  lowCardinality := false;
  getDefault := FieldArray [];
  getDefaultSerialization := SerializationOf "Serialization(Array(String))";
|}.

(** [Nullable(T)]: its default is NULL and it cannot be wrapped again. *)
Definition DataTypeNullable (nested : IDataType) : IDataType := {|
  getName := "Nullable(" +:+ getName nested +:+ ")";
  canBeInsideNullable := false;
  lowCardinality := false;
  getDefault := FieldNull;
  getDefaultSerialization :=
    SerializationOf ("Serialization(Nullable(" +:+ getName nested +:+ "))");
|}.

(** Modelled from the spec: [makeNullableOrLowCardinalityNullableSafe]
    ([DataTypeNullable.h]) wraps a type that can be inside Nullable and leaves
    any other as it is.  No low-cardinality type is registered here, so only
    the Nullable half is needed. *)
Definition makeNullableSafe (t : IDataType) : IDataType :=
  if canBeInsideNullable t then DataTypeNullable t else t.

(** The types the factory knows, found by name. *)
Definition registry : list IDataType :=
  [DataTypeUInt8; DataTypeUInt64; DataTypeInt64; DataTypeFloat64;
   DataTypeString; DataTypeArrayOfString].

Definition registry_tryGet (name : string) : option IDataType :=
  List.find (fun t => String.eqb (getName t) name) registry.

(** The [size0] subcolumn of an array column: the length of each array. *)
Definition array_size (f : Field) : Field :=
  match f with
  | FieldArray xs => FieldUInt64 (N.of_nat (length xs))
  | _ => FieldUInt64 0
  end.

Definition sizes (c : IColumn) : IColumn :=
  match c with
  | ColumnPlain c =>
      ColumnPlain {| default_value := FieldUInt64 0;
                     values := array_size <$> values c |}
  | ColumnOfDynamic d => ColumnOfDynamic d
  end.

(** Modelled from the spec: [IDataType::getSubcolumnData] is not part of the
    sources (the spec leaves the per-type nested resolver unspecified).  On
    this registry the only nested subcolumn is [size0] of [Array(String)];
    an unknown subcolumn throws or yields a null pointer, by the mode. *)
Definition generic_getSubcolumnData (subcolumn_name : string) (data : SubstreamData)
    (throw_if_null : bool) : Result (option SubstreamData) :=
  if String.eqb (getName (type data)) "Array(String)"
     && String.eqb subcolumn_name "size0"
  then Ok (Some {| serialization := SerializationOf "Serialization(Array(String)).size0";
                   type := DataTypeUInt64;
                   column := sizes <$> column data |})
  else if throw_if_null then Throw ILLEGAL_COLUMN else Ok None.

(** Modelled from the spec: the view built by [VariantSubcolumnCreator] is
    "the concrete sub-column remapped row-by-row through the local
    discriminator array": one output row per local discriminator, the next
    stored value on the rows of this variant, the default elsewhere. *)
Fixpoint expand (locals : list Discriminator) (local : Discriminator)
    (default : Field) (stored : list Field) : list Field :=
  match locals with
  | [] => []
  | d :: locals' =>
      if d =? local
      then match stored with
           | v :: stored' => v :: expand locals' local default stored'
           | [] => default :: expand locals' local default []
           end
      else default :: expand locals' local default stored
  end.

Definition variant_creator (locals : list Discriminator)
    (variant_element_name : string) (global local : Discriminator)
    (make_nullable : bool) : ISubcolumnCreator := {|
  create_column prev :=
    match prev with
    | Some (ColumnPlain c) =>
        let default := if make_nullable then FieldNull else default_value c in
        Ok (Some (ColumnPlain {| default_value := default;
                                 values := expand locals local default (values c) |}))
    | _ => Undefined
    end
|}.

(** Modelled from the spec: the null map built by
    [VariantNullMapSubcolumnCreator] has [1] "exactly where the row's local
    discriminator differs from this type's local discriminator", else [0]. *)
Definition null_map_creator (locals : list Discriminator)
    (variant_element_name : string) (global local : Discriminator)
  : ISubcolumnCreator := {|
  create_column prev :=
    Ok (Some (ColumnPlain
                {| default_value := FieldUInt64 0;
                   values := (fun d => FieldUInt64 (if d =? local then 0 else 1))
                               <$> locals |}))
|}.

Definition collaborators : Collaborators := {|
  splitName := split_at_first_dot;
  tryGet := registry_tryGet;
  getSubcolumnData := generic_getSubcolumnData;
  makeNullableOrLowCardinalityNullableSafe := makeNullableSafe;
  VariantNullMapSubcolumnCreator := null_map_creator;
  VariantSubcolumnCreator := variant_creator;
|}.

(** Rows: Int64 10, String "a", NULL, Int64 20, String "b". *)
Definition variant_column : ColumnVariant := {|
  getLocalDiscriminatorsPtr := [0; 1; 255; 0; 1];
  localDiscriminatorByGlobal d := d;
  getVariantPtrByGlobalDiscriminator d :=
    if d =? 0
    then {| default_value := FieldInt64 0; values := [FieldInt64 10; FieldInt64 20] |}
    else {| default_value := FieldString "";
            values := [FieldString "a"; FieldString "b"] |}
|}.

Definition instance : ColumnDynamic := {|
  getVariantInfo :=
    {| variant_name_to_discriminator := {[ "Int64" := 0; "String" := 1 ]} |};
  getVariantColumn := variant_column;
|}.

(** The descriptor of the Dynamic column itself, as a caller passes it. *)
Definition dynamic_type : IDataType := {|
  getName := doGetName 32 {| max_dynamic_types := 3 |};
  canBeInsideNullable := false;
  lowCardinality := false;
  getDefault := DataTypeDynamic_getDefault {| max_dynamic_types := 3 |};
  getDefaultSerialization := SerializationOf "SerializationDynamic";
|}.

Definition without_instance : SubstreamData := {|
  serialization := SerializationOf "SerializationDynamic";
  type := dynamic_type;
  column := None;
|}.

Definition with_instance : SubstreamData := {|
  serialization := SerializationOf "SerializationDynamic";
  type := dynamic_type;
  column := Some (ColumnOfDynamic instance);
|}.

Definition resolve := getDynamicSubcolumnData collaborators.

End Demo.


(** A second instance over the same collaborators, which has observed
    arrays: rows [["a"; "b"]], Int64 5, [[]]. *)
Definition arrays_variant_column : ColumnVariant := {|
  getLocalDiscriminatorsPtr := [0; 1; 0];
  localDiscriminatorByGlobal d := d;
  getVariantPtrByGlobalDiscriminator d :=
    if d =? 0
    then {| default_value := FieldArray [];
            values := [FieldArray [FieldString "a"; FieldString "b"]; FieldArray []] |}
    else {| default_value := FieldInt64 0; values := [FieldInt64 5] |}
|}.

Definition arrays_instance : ColumnDynamic := {|
  getVariantInfo :=
    {| variant_name_to_discriminator := {[ "Array(String)" := 0; "Int64" := 1 ]} |};
  getVariantColumn := arrays_variant_column;
|}.

Definition with_arrays_instance : SubstreamData :=
  set_column (Some (ColumnOfDynamic arrays_instance)) Demo.with_instance.

(** A third instance: five NULL rows, no variant observed. *)
Definition nulls_instance : ColumnDynamic := {|
  getVariantInfo := {| variant_name_to_discriminator := ∅ |};
  getVariantColumn :=
    {| getLocalDiscriminatorsPtr := [255; 255; 255; 255; 255];
       localDiscriminatorByGlobal d := d;
       getVariantPtrByGlobalDiscriminator d :=
         {| default_value := FieldNull; values := [] |} |};
|}.

(** ** Vocabulary of the statements *)

(** The two codes raised by [create]; the spec calls both a
    declaration-syntax error. *)
Definition DeclarationSyntaxError (code : ErrorCode) : Prop :=
  code = NUMBER_OF_ARGUMENTS_DOESNT_MATCH \/ code = UNEXPECTED_AST_STRUCTURE.

(** An argument list that is exactly one [max_types = N] with [N] an unsigned
    literal between 1 and 255. *)
Definition well_formed_declaration (arguments : ASTPtr) : Prop :=
  exists (args operands : IAST) (n : N),
    arguments = Some args /\
    children args = [ASTFunction "equals" (Some operands)] /\
    children operands = [ASTIdentifier "max_types"; ASTLiteral (FieldUInt64 n)] /\
    1 <= n <= 255.

(** An argument that, when it is an [equals] function, is a binary equality
    with an identifier on the left: what the parser builds for [ident = rhs]. *)
Definition equality_on_identifier (child : IAST) : Prop :=
  forall fn_arguments,
    child = ASTFunction "equals" fn_arguments ->
    exists operands ident rhs,
      fn_arguments = Some operands /\
      children operands = [ASTIdentifier ident; rhs].

(** The descriptor a call returned, if it returned one. *)
Definition returned (r : Result (option SubstreamData)) : option SubstreamData :=
  match r with
  | Ok (Some res) => Some res
  | _ => None
  end.

(** The same collaborators with another generic nested resolver. *)
Definition with_getSubcolumnData
    (g : string -> SubstreamData -> bool -> Result (option SubstreamData))
    (E : Collaborators) : Collaborators := {|
  splitName := splitName E;
  tryGet := tryGet E;
  getSubcolumnData := g;
  makeNullableOrLowCardinalityNullableSafe := makeNullableOrLowCardinalityNullableSafe E;
  VariantNullMapSubcolumnCreator := VariantNullMapSubcolumnCreator E;
  VariantSubcolumnCreator := VariantSubcolumnCreator E;
|}.

(** A remainder that starts with the segment [null]. *)
Definition begins_with_null_segment (tail : string) : Prop :=
  tail = "null" \/ exists rest, tail = "null." +:+ rest.

(** Contract of the two subcolumn creators: when [create] returns, it returns
    a column with one row per local discriminator. *)
Definition creators_sized (E : Collaborators) : Prop :=
  forall locals name global local prev out,
    (create_column (VariantNullMapSubcolumnCreator E locals name global local) prev
     = Ok out ->
     exists c, out = Some c /\ size c = length locals) /\
    (forall make_nullable,
       create_column (VariantSubcolumnCreator E locals name global local make_nullable) prev
       = Ok out ->
       exists c, out = Some c /\ size c = length locals).

(** Contract of the generic nested resolver: it extracts a column only from
    a descriptor that holds one. *)
Definition nested_resolver_needs_column (E : Collaborators) : Prop :=
  forall name data throw_if_null res,
    column data = None ->
    getSubcolumnData E name data throw_if_null = Ok (Some res) ->
    column res = None.

(** An argument list that spells a bound [n] the way the creator reads it:
    a single [equals] function whose first two operands are the identifier
    [max_types] and the unsigned literal [n].  Operands after the second are
    never looked at (lines 68 and 72 index positions 0 and 1 only). *)
Definition declares_bound (args : IAST) (n : N) : Prop :=
  exists operands extra,
    children args = [ASTFunction "equals" (Some operands)] /\
    children operands
    = ASTIdentifier "max_types" :: ASTLiteral (FieldUInt64 n) :: extra.

(** The shapes of a single [equals] argument on which lines 68-72 leave
    defined behaviour: no operand list, no operand, a left operand that is
    not an identifier, or [max_types] with nothing on the right. *)
Definition dereferences_null_or_past_end (fn_arguments : ASTPtr) : Prop :=
  fn_arguments = None \/
  exists operands,
    fn_arguments = Some operands /\
    (children operands = [] \/
     (exists lhs rest, children operands = lhs :: rest /\ as_ASTIdentifier lhs = None) \/
     children operands = [ASTIdentifier "max_types"]).

(** [canBeInsideNullable() || lowCardinality()] of line 130. *)
Definition make_subcolumn_nullable (subcolumn_type : IDataType) : bool :=
  canBeInsideNullable subcolumn_type || lowCardinality subcolumn_type.

(** The semantic type of lines 130-132 for a resolved type [resolved] under
    the head type [subcolumn_type]. *)
Definition wrapped_type (E : Collaborators) (subcolumn_type resolved : IDataType)
  : IDataType :=
  if make_subcolumn_nullable subcolumn_type
  then makeNullableOrLowCardinalityNullableSafe E resolved
  else resolved.

(** The creator of lines 142-154 for a discriminator found in the instance. *)
Definition creator_for (E : Collaborators) (instance : ColumnDynamic)
    (discriminator : Discriminator) (is_null_map_subcolumn : bool)
    (subcolumn_type : IDataType) : ISubcolumnCreator :=
  let variant_column := getVariantColumn instance in
  if is_null_map_subcolumn
  then VariantNullMapSubcolumnCreator E
         (getLocalDiscriminatorsPtr variant_column) "" discriminator
         (localDiscriminatorByGlobal variant_column discriminator)
  else VariantSubcolumnCreator E
         (getLocalDiscriminatorsPtr variant_column) "" discriminator
         (localDiscriminatorByGlobal variant_column discriminator)
         (make_subcolumn_nullable subcolumn_type).

(** The descriptor handed to the generic resolver when the instance holds a
    variant of the head type: the head type, its default serialization and
    the variant's own column. *)
Definition observed_tentative (instance : ColumnDynamic)
    (discriminator : Discriminator) (subcolumn_type : IDataType) : SubstreamData := {|
  serialization := getDefaultSerialization subcolumn_type;
  type := subcolumn_type;
  column := Some (ColumnPlain
                    (getVariantPtrByGlobalDiscriminator
                       (getVariantColumn instance) discriminator));
|}.


(** * Properties of the declaration *)

Example create_7 : create 32 (max_types_equals 7) = Ok {| max_dynamic_types := 7 |}.
Proof. reflexivity. Qed.

Example name_7 : doGetName 32 {| max_dynamic_types := 7 |} = "Dynamic(max_types=7)".
Proof. reflexivity. Qed.

Example name_32 : doGetName 32 {| max_dynamic_types := 32 |} = "Dynamic".
Proof. reflexivity. Qed.

Example parse_plain : parseDeclaration "Dynamic" = Some None.
Proof. reflexivity. Qed.

Example parse_spaced :
  parseDeclaration "Dynamic(max_types = 12)" = Some (max_types_equals 12).
Proof. reflexivity. Qed.

Example parse_printed :
  parseDeclaration (doGetName 32 {| max_dynamic_types := 255 |})
  = Some (max_types_equals 255).
Proof. reflexivity. Qed.

Lemma create_from_literal_in_range n :
  1 <= n <= 255 ->
  create_from_literal (ASTLiteral (FieldUInt64 n)) = Ok {| max_dynamic_types := n |}.
Proof.
  intros [Hlo Hhi]. unfold create_from_literal, MAX_NESTED_COLUMNS. simpl.
  destruct (N.eqb_spec n 0) as [->|_]; [lia|].
  destruct (N.ltb_spec 255 n); [lia|]. reflexivity.
Qed.

Lemma create_from_literal_out_of_range n :
  n = 0 \/ 255 < n ->
  create_from_literal (ASTLiteral (FieldUInt64 n)) = Throw UNEXPECTED_AST_STRUCTURE.
Proof.
  intros H. unfold create_from_literal, MAX_NESTED_COLUMNS. simpl.
  destruct (N.eqb_spec n 0) as [->|Hn]; [reflexivity|].
  destruct (N.ltb_spec 255 n); [reflexivity|lia].
Qed.

(** The right-hand side either is a literal in range or is refused. *)
Lemma create_from_literal_cases rhs :
  (exists n, rhs = ASTLiteral (FieldUInt64 n) /\ 1 <= n <= 255) \/
  create_from_literal rhs = Throw UNEXPECTED_AST_STRUCTURE.
Proof.
  destruct rhs as [| | |value|]; try (right; reflexivity).
  destruct value as [|n| | | |]; try (right; reflexivity).
  destruct (decide (1 <= n <= 255)) as [Hn|Hn].
  - left. eauto.
  - right. apply create_from_literal_out_of_range. lia.
Qed.

Lemma create_max_types_equals DEFAULT n :
  create DEFAULT (max_types_equals n)
  = create_from_literal (ASTLiteral (FieldUInt64 n)).
Proof. reflexivity. Qed.

(** C5: a declaration without arguments yields the default bound;
    [Dynamic(max_types=N)] yields the bound [N] for every [N] from 1 to 255;
    [N = 0] and every [N] above 255 are refused. *)
Theorem create_bound DEFAULT :
  create DEFAULT None = Ok {| max_dynamic_types := DEFAULT |} /\
  create DEFAULT (Some (ASTExpressionList [])) = Ok {| max_dynamic_types := DEFAULT |} /\
  (forall n, 1 <= n <= 255 ->
     create DEFAULT (max_types_equals n) = Ok {| max_dynamic_types := n |}) /\
  create DEFAULT (max_types_equals 0) = Throw UNEXPECTED_AST_STRUCTURE /\
  (forall n, 255 < n ->
     create DEFAULT (max_types_equals n) = Throw UNEXPECTED_AST_STRUCTURE).
Proof.
  split; [reflexivity|]. split; [reflexivity|].
  split; [|split].
  - intros n Hn. rewrite create_max_types_equals.
    by apply create_from_literal_in_range.
  - reflexivity.
  - intros n Hn. rewrite create_max_types_equals.
    apply create_from_literal_out_of_range. by right.
Qed.

Lemma create_bound_witness :
  create 32 (max_types_equals 1) = Ok {| max_dynamic_types := 1 |} /\
  create 32 (max_types_equals 255) = Ok {| max_dynamic_types := 255 |} /\
  create 32 (max_types_equals 256) = Throw UNEXPECTED_AST_STRUCTURE.
Proof.
  destruct (create_bound 32) as (_ & _ & Hin & _ & Hout).
  split; [apply Hin; lia|].
  split; [apply Hin; lia|].
  apply Hout; lia.
Defined.

(** C3, as stated, fails on the empty argument list: it is not a
    [max_types = N] equality, and the creator answers it with the default
    descriptor instead of an error. *)
Lemma create_accepts_empty_argument_list :
  ~ well_formed_declaration (Some (ASTExpressionList [])) /\
  create 32 (Some (ASTExpressionList [])) = Ok {| max_dynamic_types := 32 |} /\
  ~ (exists code, create 32 (Some (ASTExpressionList [])) = Throw code).
Proof.
  split; [|split].
  - intros (args & operands & n & Hargs & Hchildren & _).
    injection Hargs as <-. discriminate Hchildren.
  - reflexivity.
  - intros [code Hcode]. discriminate Hcode.
Qed.

(** C3 (amended): a non-empty argument list that is not one [max_types = N]
    with [N] between 1 and 255 is refused with a declaration-syntax error,
    provided its single argument, when it is an [equals] function, is a binary
    equality with an identifier on the left.  More than one argument gives
    [NUMBER_OF_ARGUMENTS_DOESNT_MATCH], every other refusal
    [UNEXPECTED_AST_STRUCTURE]. *)
Theorem create_rejects_malformed DEFAULT (args child : IAST) (others : list IAST) :
  children args = child :: others ->
  (others = [] -> equality_on_identifier child) ->
  ~ well_formed_declaration (Some args) ->
  exists code,
    create DEFAULT (Some args) = Throw code /\
    DeclarationSyntaxError code /\
    (code = NUMBER_OF_ARGUMENTS_DOESNT_MATCH <-> others <> []).
Proof.
  intros Hchildren Hshape Hbad. unfold create. rewrite Hchildren.
  destruct others as [|other others].
  - assert (Hsingle : exists code,
               code = UNEXPECTED_AST_STRUCTURE /\
               match as_ASTFunction child with
               | Some (name, fn_arguments) =>
                   if negb (name =? "equals")%string
                   then Throw UNEXPECTED_AST_STRUCTURE
                   else
                     operands <- deref fn_arguments ;;
                     lhs <- at_index (children operands) 0 ;;
                     identifier_name <- deref (as_ASTIdentifier lhs) ;;
                     if negb (identifier_name =? "max_types")%string
                     then Throw UNEXPECTED_AST_STRUCTURE
                     else
                       rhs <- at_index (children operands) 1 ;;
                       create_from_literal rhs
               | None => Throw UNEXPECTED_AST_STRUCTURE
               end = Throw code).
    { exists UNEXPECTED_AST_STRUCTURE. split; [done|].
      destruct child as [|name fn_arguments| | |]; try reflexivity. simpl.
      destruct (String.eqb_spec name "equals") as [->|_]; [simpl|reflexivity].
      destruct (Hshape eq_refl fn_arguments eq_refl)
        as (operands & ident & rhs & -> & Hoperands).
      simpl. rewrite Hoperands. simpl.
      destruct (String.eqb_spec ident "max_types") as [->|_]; [simpl|reflexivity].
      destruct (create_from_literal_cases rhs) as [(n & -> & Hn)|Hrhs]; [|done].
      exfalso. apply Hbad. exists args, operands, n. by rewrite Hchildren, Hoperands. }
    destruct Hsingle as (code & -> & Hcode). eexists. split; [exact Hcode|].
    split; [by right|]. split; [discriminate|congruence].
  - exists NUMBER_OF_ARGUMENTS_DOESNT_MATCH. split; [done|].
    split; [by left|]. split; [discriminate|done].
Qed.

Lemma create_rejects_malformed_witness :
  exists code,
    create 32 (Some (ASTExpressionList
                 [equality (ASTIdentifier "max_type") (ASTLiteral (FieldUInt64 8))]))
    = Throw code /\
    DeclarationSyntaxError code /\
    (code = NUMBER_OF_ARGUMENTS_DOESNT_MATCH <-> @nil IAST <> []).
Proof.
  apply (create_rejects_malformed 32 _
           (equality (ASTIdentifier "max_type") (ASTLiteral (FieldUInt64 8))) []).
  - reflexivity.
  - intros _ fn_arguments Heq. injection Heq as <-.
    eexists _, _, _. split; reflexivity.
  - intros (args & operands & n & Hargs & Hchildren & Hoperands & _).
    injection Hargs as <-. simpl in Hchildren.
    injection Hchildren as <-. simpl in Hoperands. discriminate Hoperands.
Defined.

(** The argument [1 = 2]: the downcast of the left operand to an
    identifier yields a null pointer, which line 68 dereferences. *)
Example create_literal_on_the_left :
  create 32 (Some (ASTExpressionList
               [equality (ASTLiteral (FieldUInt64 1)) (ASTLiteral (FieldUInt64 2))]))
  = Undefined.
Proof. reflexivity. Qed.

(** [equals] applied to a single operand: line 72 indexes past the end. *)
Example create_unary_equals :
  create 32 (Some (ASTExpressionList
               [ASTFunction "equals"
                  (Some (ASTExpressionList [ASTIdentifier "max_types"]))]))
  = Undefined.
Proof. reflexivity. Qed.

(** ** The printed name reads back *)

Lemma string_of_uint_digits d :
  all_chars is_digit (NilEmpty.string_of_uint d) = true.
Proof. induction d; simpl; auto. Qed.

Lemma toString_digits n : all_chars is_digit (toString n) = true.
Proof.
  unfold toString, NilZero.string_of_uint.
  destruct (N.to_uint n) eqn:Hd; try reflexivity;
    rewrite <- Hd; apply string_of_uint_digits.
Qed.

Lemma to_uint_nonnil n : N.to_uint n <> Decimal.Nil.
Proof.
  destruct n as [|p]; simpl; [discriminate|].
  apply DecimalPos.Unsigned.to_uint_nonnil.
Qed.

Lemma toString_nonempty n : toString n <> "".
Proof.
  unfold toString, NilZero.string_of_uint.
  pose proof (to_uint_nonnil n) as Hn.
  destruct (N.to_uint n); try congruence; discriminate.
Qed.

Lemma uint_of_string_toString n :
  NilZero.uint_of_string (toString n) = Some (N.to_uint n).
Proof. apply NilZero.usu, to_uint_nonnil. Qed.

Lemma digit_not_space c : is_digit c = true -> is_space c = false.
Proof.
  unfold is_digit, is_space. intros H.
  apply andb_prop in H as [H _]. apply N.leb_le in H.
  apply N.eqb_neq. lia.
Qed.

(** Scanning digits stops at the closing parenthesis. *)
Lemma span_digits digits :
  all_chars is_digit digits = true ->
  span is_digit (digits +:+ ")") = (digits, ")").
Proof.
  induction digits as [|c digits IH]; simpl; [done|].
  intros H. apply andb_prop in H as [Hc Hrest].
  by rewrite Hc, (IH Hrest).
Qed.

Lemma skip_spaces_digits digits rest :
  all_chars is_digit digits = true -> digits <> "" ->
  skip_spaces (digits +:+ rest) = digits +:+ rest.
Proof.
  destruct digits as [|c digits]; [done|]. simpl. intros H _.
  apply andb_prop in H as [Hc _].
  unfold skip_spaces. simpl. by rewrite (digit_not_space c Hc).
Qed.

Lemma parseDynamicArgument_printed n :
  parseDynamicArgument ("max_types=" +:+ toString n +:+ ")")
  = Some (equality (ASTIdentifier "max_types") (ASTLiteral (FieldUInt64 n))).
Proof.
  unfold parseDynamicArgument.
  change (skip_spaces ("max_types=" +:+ toString n +:+ ")"))
    with ("max_types=" +:+ toString n +:+ ")").
  change (span is_word_char ("max_types=" +:+ toString n +:+ ")"))
    with ("max_types", "=" +:+ toString n +:+ ")").
  cbv beta iota.
  change (skip_spaces ("=" +:+ toString n +:+ ")")) with ("=" +:+ toString n +:+ ")").
  change ("=" +:+ toString n +:+ ")") with (String "=" (toString n +:+ ")")).
  cbv beta iota. change (Ascii.eqb "=" "=") with true. cbv beta iota.
  rewrite (skip_spaces_digits _ _ (toString_digits n) (toString_nonempty n)).
  rewrite (span_digits _ (toString_digits n)).
  rewrite uint_of_string_toString.
  change (String.eqb (skip_spaces ")") ")") with true. cbv beta iota.
  by rewrite DecimalN.Unsigned.of_to.
Qed.

Lemma parseDeclaration_printed n :
  parseDeclaration ("Dynamic(max_types=" +:+ toString n +:+ ")")
  = Some (max_types_equals n).
Proof.
  unfold parseDeclaration.
  change (strip_prefix "Dynamic" ("Dynamic(max_types=" +:+ toString n +:+ ")"))
    with (Some (String "(" ("max_types=" +:+ toString n +:+ ")"))).
  cbv beta iota. change (Ascii.eqb "(" "(") with true. cbv beta iota.
  by rewrite parseDynamicArgument_printed.
Qed.

Lemma create_from_literal_Ok rhs t :
  create_from_literal rhs = Ok t -> 1 <= max_dynamic_types t <= 255.
Proof.
  destruct (create_from_literal_cases rhs) as [(n & -> & Hn)| -> ]; [|discriminate].
  rewrite (create_from_literal_in_range n Hn). by intros [= <-].
Qed.

(** What the creator returns is the default or lies between 1 and 255. *)
Lemma create_Ok_bound DEFAULT arguments t :
  create DEFAULT arguments = Ok t ->
  max_dynamic_types t = DEFAULT \/ 1 <= max_dynamic_types t <= 255.
Proof.
  unfold create, bind, at_index, deref. intros H.
  repeat (case_match; simplify_eq/=; try done);
    solve [by left | right; by eapply create_from_literal_Ok].
Qed.

(** C10: the printed name is ["Dynamic"] exactly when the bound is the
    default and ["Dynamic(max_types=b)"] otherwise; the name of every
    descriptor the creator can return reads back, through the declaration
    parser and the creator, as the same descriptor. *)
Theorem doGetName_round_trip DEFAULT :
  (forall t, doGetName DEFAULT t = "Dynamic" <-> max_dynamic_types t = DEFAULT) /\
  (forall t, max_dynamic_types t <> DEFAULT ->
     doGetName DEFAULT t
     = "Dynamic(max_types=" +:+ toString (max_dynamic_types t) +:+ ")") /\
  (forall arguments t,
     create DEFAULT arguments = Ok t ->
     exists parsed,
       parseDeclaration (doGetName DEFAULT t) = Some parsed /\
       create DEFAULT parsed = Ok t).
Proof.
  split; [|split].
  - intros [b]. unfold doGetName. simpl max_dynamic_types.
    destruct (N.eqb_spec b DEFAULT) as [->|Hne]; [done|].
    split; [discriminate|done].
  - intros [b] Hne. unfold doGetName. simpl in *.
    by destruct (N.eqb_spec b DEFAULT).
  - intros arguments [b] Hcreate.
    apply create_Ok_bound in Hcreate as Hb. simpl in Hb.
    unfold doGetName. simpl max_dynamic_types.
    destruct (N.eqb_spec b DEFAULT) as [->|Hne].
    + exists None. by split.
    + destruct Hb as [Hb|Hb]; [done|].
      exists (max_types_equals b). split.
      * apply parseDeclaration_printed.
      * rewrite create_max_types_equals. by apply create_from_literal_in_range.
Qed.

Lemma doGetName_round_trip_witness :
  exists parsed,
    parseDeclaration (doGetName 32 {| max_dynamic_types := 7 |}) = Some parsed /\
    create 32 parsed = Ok {| max_dynamic_types := 7 |}.
Proof.
  exact (proj2 (proj2 (doGetName_round_trip 32)) (max_types_equals 7) _ eq_refl).
Defined.

(** The constructor itself takes any bound: the name of a descriptor built
    with 0 does not read back. *)
Example name_of_zero_bound :
  (a ← parseDeclaration (doGetName 32 {| max_dynamic_types := 0 |});
   Some (create 32 a))
  = Some (Throw UNEXPECTED_AST_STRUCTURE).
Proof. reflexivity. Qed.

(** * Properties of the resolver *)

Example resolve_unobserved_null_map :
  (column <$> returned (Demo.resolve "Float64.null" Demo.with_instance true))
  = Some (Some (ColumnPlain
       {| default_value := FieldUInt64 0;
          values := replicate 5 (FieldUInt64 1) |})).
Proof. reflexivity. Qed.

Example resolve_observed_null_map :
  (column <$> returned (Demo.resolve "String.null" Demo.with_instance true))
  = Some (Some (ColumnPlain
       {| default_value := FieldUInt64 0;
          values := FieldUInt64 <$> [1; 0; 1; 1; 0] |})).
Proof. reflexivity. Qed.

Example resolve_observed_values :
  (column <$> returned (Demo.resolve "Int64" Demo.with_instance true))
  = Some (Some (ColumnPlain
       {| default_value := FieldNull;
          values := [FieldInt64 10; FieldNull; FieldNull; FieldInt64 20; FieldNull] |})).
Proof. reflexivity. Qed.

Section ResolverFacts.

Variable E : Collaborators.

(** Materialization only sets the column. *)
Lemma materialize_keeps data discriminator is_null make_nullable res res' :
  materialize E data discriminator is_null make_nullable res = Ok res' ->
  type res' = type res /\ serialization res' = serialization res.
Proof.
  unfold materialize, bind. intros H.
  repeat (case_match; simplify_eq/=; try done).
Qed.

(** Without an instance there is nothing to materialize. *)
Lemma materialize_no_instance data discriminator is_null make_nullable res :
  column data = None ->
  materialize E data discriminator is_null make_nullable res = Ok res.
Proof. unfold materialize. by intros ->. Qed.

Lemma tentative_no_instance T data :
  column data = None ->
  tentative T data
  = Ok (None, {| serialization := getDefaultSerialization T; type := T; column := None |}).
Proof. unfold tentative. by intros ->. Qed.

(** The tentative descriptor always carries the head type and its default
    serialization. *)
Lemma tentative_type T data found :
  tentative T data = Ok found ->
  type found.2 = T /\ serialization found.2 = getDefaultSerialization T.
Proof.
  unfold tentative, bind. intros H.
  repeat (case_match; simplify_eq/=; try done).
Qed.

Lemma descend_null res throw_if_null :
  descend E "null" res throw_if_null = Ok (Some (set_type DataTypeUInt8 res)).
Proof. reflexivity. Qed.

Lemma descend_nested tail res throw_if_null :
  tail <> "" -> tail <> "null" ->
  descend E tail res throw_if_null = getSubcolumnData E tail res throw_if_null.
Proof.
  intros Hempty Hnull. unfold descend.
  destruct (String.eqb_spec tail "null"); [done|].
  by destruct (String.eqb_spec tail "").
Qed.

End ResolverFacts.

(** C6: when the head segment is not a registered type name, the resolver
    throws [ILLEGAL_COLUMN] in throwing mode and returns a null pointer
    otherwise; no descriptor comes back in either mode. *)
Theorem unknown_head_type E path data throw_if_null :
  tryGet E (splitName E path).1 = None ->
  getDynamicSubcolumnData E path data throw_if_null
  = (if throw_if_null then Throw ILLEGAL_COLUMN else Ok None) /\
  (forall res, getDynamicSubcolumnData E path data throw_if_null <> Ok (Some res)).
Proof.
  intros Hhead. unfold getDynamicSubcolumnData.
  destruct (splitName E path) as [head tail]. simpl in Hhead. rewrite Hhead.
  split; [done|]. by destruct throw_if_null.
Qed.

Lemma unknown_head_type_witness :
  (Demo.resolve "NoSuchType.null" Demo.with_instance true = Throw ILLEGAL_COLUMN /\
   forall res, Demo.resolve "NoSuchType.null" Demo.with_instance true <> Ok (Some res)) /\
  (Demo.resolve "NoSuchType.null" Demo.with_instance false = Ok None /\
   forall res, Demo.resolve "NoSuchType.null" Demo.with_instance false <> Ok (Some res)).
Proof.
  split.
  - exact (unknown_head_type Demo.collaborators "NoSuchType.null" Demo.with_instance true eq_refl).
  - exact (unknown_head_type Demo.collaborators "NoSuchType.null" Demo.with_instance false eq_refl).
Defined.

(** C7: a path whose remainder is exactly [null] resolves, when it resolves,
    to the type [UInt8] itself, whatever the head type's
    [canBeInsideNullable] and [lowCardinality] answer. *)
Theorem null_map_type E path data throw_if_null res :
  (splitName E path).2 = "null" ->
  getDynamicSubcolumnData E path data throw_if_null = Ok (Some res) ->
  type res = DataTypeUInt8.
Proof.
  unfold getDynamicSubcolumnData.
  destruct (splitName E path) as [head tail]. simpl. intros ->.
  destruct (tryGet E head) as [T|]; [|by destruct throw_if_null].
  destruct (tentative T data) as [[discriminator tentative_res]| |]; [|done..].
  cbn [bind]. rewrite descend_null. cbn [bind].
  destruct (materialize _ _ _ _ _ _) as [res'| |] eqn:Hmat; [|done..].
  cbn [bind]. intros [= <-]. by apply materialize_keeps in Hmat as [-> _].
Qed.

Lemma null_map_type_witness :
  exists res,
    Demo.resolve "String.null" Demo.with_instance true = Ok (Some res) /\
    canBeInsideNullable Demo.DataTypeString = true /\
    type res = DataTypeUInt8.
Proof.
  eexists. split; [reflexivity|]. split; [reflexivity|].
  exact (null_map_type Demo.collaborators "String.null" Demo.with_instance true _
           eq_refl eq_refl).
Defined.

(** C2, as stated, fails on a remainder that continues after [null]:
    [String.null.x] splits into [String] and [null.x], which is not equal to
    [null]; the remainder is handed whole to the generic resolver, whose
    answer decides the outcome, and no null-map descriptor is produced. *)
Lemma longer_null_remainder_descends :
  splitName Demo.collaborators "String.null.x" = ("String", "null.x") /\
  begins_with_null_segment "null.x" /\
  Demo.resolve "String.null.x" Demo.without_instance false = Ok None /\
  Demo.resolve "String.null.x" Demo.without_instance true = Throw ILLEGAL_COLUMN /\
  (serialization
     <$> returned (getDynamicSubcolumnData
                     (with_getSubcolumnData (fun _ res _ => Ok (Some res))
                        Demo.collaborators)
                     "String.null.x" Demo.without_instance false))
  = Some (SerializationDynamicElement
            (getDefaultSerialization Demo.DataTypeString) "String" false).
Proof.
  split; [reflexivity|]. split; [right; by exists "x"|].
  split; [reflexivity|]. split; reflexivity.
Qed.

(** C2 (amended): when the remainder is exactly [null], the generic nested
    resolver is not consulted (the outcome is the same under any other nested
    resolver), and a returned descriptor is the null-map leaf of the head
    type: type [UInt8], the head type's default serialization tagged as a
    null map.  Any other non-empty remainder, in particular one that begins
    with the segment [null] and continues, is not the null-map leaf: it is
    handed whole to the generic nested resolver together with the tentative
    descriptor; an answer of that resolver that is not a descriptor is the
    outcome of the call, and a returned descriptor is built from the
    descriptor it answered (its serialization, tagged as not a null map, and
    its type, wrapped on the head type's flag). *)
Theorem null_is_terminal E path data throw_if_null :
  ((splitName E path).2 = "null" ->
   (forall g,
      getDynamicSubcolumnData (with_getSubcolumnData g E) path data throw_if_null
      = getDynamicSubcolumnData E path data throw_if_null) /\
   (forall T res,
      tryGet E (splitName E path).1 = Some T ->
      getDynamicSubcolumnData E path data throw_if_null = Ok (Some res) ->
      type res = DataTypeUInt8 /\
      serialization res
      = SerializationDynamicElement (getDefaultSerialization T) (getName T) true)) /\
  (forall T found,
     (splitName E path).2 <> "null" ->
     (splitName E path).2 <> "" \/ begins_with_null_segment (splitName E path).2 ->
     tryGet E (splitName E path).1 = Some T ->
     tentative T data = Ok found ->
     (forall outcome,
        getSubcolumnData E (splitName E path).2 found.2 throw_if_null = outcome ->
        (forall nested, outcome <> Ok (Some nested)) ->
        getDynamicSubcolumnData E path data throw_if_null = outcome) /\
     (forall res,
        getDynamicSubcolumnData E path data throw_if_null = Ok (Some res) ->
        exists nested,
          getSubcolumnData E (splitName E path).2 found.2 throw_if_null
          = Ok (Some nested) /\
          serialization res
          = SerializationDynamicElement (serialization nested) (getName T) false /\
          type res = wrapped_type E T (type nested))).
Proof.
  split.
  - intros Htail. split.
    + intros g. unfold getDynamicSubcolumnData.
      cbn [with_getSubcolumnData splitName tryGet].
      destruct (splitName E path) as [head tail]. simpl in Htail. subst tail.
      destruct (tryGet E head) as [T|]; [|done].
      destruct (tentative T data) as [[discriminator tentative_res]| |]; [|done..].
      cbn [bind]. by rewrite !descend_null.
    + intros T res. unfold getDynamicSubcolumnData.
      destruct (splitName E path) as [head tail]. simpl in Htail. subst tail.
      cbn [fst]. intros ->.
      destruct (tentative T data) as [[discriminator tentative_res]| |] eqn:Hten;
        [|done..].
      cbn [bind]. rewrite descend_null. cbn [bind].
      destruct (materialize _ _ _ _ _ _) as [res'| |] eqn:Hmat; [|done..].
      cbn [bind]. intros [= <-].
      apply materialize_keeps in Hmat as [-> ->].
      apply tentative_type in Hten as [_ Hser]. simpl in *. by rewrite Hser.
  - intros T found Hnull Hcontinues.
    assert (Hempty : (splitName E path).2 <> "").
    { destruct Hcontinues as [|[Heq|[rest Heq]]]; [done|done|]. by rewrite Heq. }
    clear Hcontinues. revert Hnull Hempty. unfold getDynamicSubcolumnData.
    destruct (splitName E path) as [head tail]. cbn [fst snd].
    intros Hnull Hempty -> ->.
    destruct found as [discriminator tentative_res]. cbn [bind snd].
    rewrite descend_nested by done. split.
    + intros outcome -> Hnone.
      destruct outcome as [[nested|]| |]; [|done..]. by destruct (Hnone nested).
    + intros res.
      destruct (getSubcolumnData E tail tentative_res throw_if_null)
        as [[nested|]| |]; [|done..].
      cbn [bind]. destruct (String.eqb_spec tail "null") as [|_]; [done|].
      cbn [negb andb].
      destruct (materialize _ _ _ _ _ _) as [res'| |] eqn:Hmat; [|done..].
      cbn [bind]. intros [= <-]. exists nested. split; [done|].
      apply materialize_keeps in Hmat as [-> ->].
      unfold wrapped_type, make_subcolumn_nullable.
      by destruct (canBeInsideNullable T || lowCardinality T).
Qed.

Lemma null_is_terminal_witness :
  getDynamicSubcolumnData
    (with_getSubcolumnData (fun _ _ _ => Throw ILLEGAL_COLUMN) Demo.collaborators)
    "String.null" Demo.with_instance true
  = Demo.resolve "String.null" Demo.with_instance true /\
  Demo.resolve "String.null.x" Demo.with_instance false = Ok None /\
  Demo.resolve "String.null.x" Demo.with_instance true = Throw ILLEGAL_COLUMN.
Proof.
  split; [|split].
  - exact (proj1 (proj1 (null_is_terminal Demo.collaborators "String.null"
                           Demo.with_instance true) eq_refl)
             (fun _ _ _ => Throw ILLEGAL_COLUMN)).
  - exact (proj1 (proj2 (null_is_terminal Demo.collaborators "String.null.x"
                           Demo.with_instance false)
                    Demo.DataTypeString
                    (Some 1, observed_tentative Demo.instance 1 Demo.DataTypeString)
                    ltac:(discriminate)
                    (or_intror (or_intror (ex_intro _ "x" eq_refl)))
                    eq_refl eq_refl)
             (Ok None) eq_refl ltac:(discriminate)).
  - exact (proj1 (proj2 (null_is_terminal Demo.collaborators "String.null.x"
                           Demo.with_instance true)
                    Demo.DataTypeString
                    (Some 1, observed_tentative Demo.instance 1 Demo.DataTypeString)
                    ltac:(discriminate)
                    (or_intror (or_intror (ex_intro _ "x" eq_refl)))
                    eq_refl eq_refl)
             (Throw ILLEGAL_COLUMN) eq_refl ltac:(discriminate)).
Defined.

(** C1, as stated, fails on [Array(String).size0]: the resolved type [UInt64]
    can be inside Nullable, yet the result is left unwrapped because the head
    type [Array(String)] cannot. *)
Lemma wrap_ignores_resolved_type :
  splitName Demo.collaborators "Array(String).size0" = ("Array(String)", "size0") /\
  tryGet Demo.collaborators "Array(String)" = Some Demo.DataTypeArrayOfString /\
  (type <$> returned (getSubcolumnData Demo.collaborators "size0"
                        {| serialization := getDefaultSerialization Demo.DataTypeArrayOfString;
                           type := Demo.DataTypeArrayOfString;
                           column := None |} true))
  = Some Demo.DataTypeUInt64 /\
  canBeInsideNullable Demo.DataTypeUInt64 || lowCardinality Demo.DataTypeUInt64 = true /\
  canBeInsideNullable Demo.DataTypeArrayOfString
    || lowCardinality Demo.DataTypeArrayOfString = false /\
  (type <$> returned (Demo.resolve "Array(String).size0" Demo.without_instance true))
  = Some Demo.DataTypeUInt64 /\
  makeNullableOrLowCardinalityNullableSafe Demo.collaborators Demo.DataTypeUInt64
  = Demo.DataTypeNullable Demo.DataTypeUInt64 /\
  Demo.DataTypeNullable Demo.DataTypeUInt64 <> Demo.DataTypeUInt64.
Proof. repeat (split; [reflexivity|]). discriminate. Qed.

(** C1 (amended): for a path whose non-empty remainder is resolved by the
    generic resolver, the decision to wrap is taken on the head type named by
    the first segment ([canBeInsideNullable] or [lowCardinality] of it); the
    wrapping itself is applied to the resolved nested type. *)
Theorem wrap_decided_on_head_type E path data throw_if_null T found nested res :
  tryGet E (splitName E path).1 = Some T ->
  (splitName E path).2 <> "" ->
  (splitName E path).2 <> "null" ->
  tentative T data = Ok found ->
  getSubcolumnData E (splitName E path).2 found.2 throw_if_null = Ok (Some nested) ->
  getDynamicSubcolumnData E path data throw_if_null = Ok (Some res) ->
  type res
  = if canBeInsideNullable T || lowCardinality T
    then makeNullableOrLowCardinalityNullableSafe E (type nested)
    else type nested.
Proof.
  unfold getDynamicSubcolumnData.
  destruct (splitName E path) as [head tail]. cbn [fst snd].
  intros -> Hempty Hnull -> Hnested.
  destruct found as [discriminator tentative_res]. cbn [bind snd] in *.
  rewrite descend_nested, Hnested by done. cbn [bind].
  destruct (String.eqb_spec tail "null") as [|_]; [done|]. cbn [negb andb].
  destruct (materialize _ _ _ _ _ _) as [res'| |] eqn:Hmat; [|done..].
  cbn [bind]. intros [= <-].
  apply materialize_keeps in Hmat as [-> _].
  by destruct (canBeInsideNullable T || lowCardinality T).
Qed.

Lemma wrap_decided_on_head_type_witness :
  exists res,
    Demo.resolve "Array(String).size0" Demo.with_instance true = Ok (Some res) /\
    type res
    = if canBeInsideNullable Demo.DataTypeArrayOfString
         || lowCardinality Demo.DataTypeArrayOfString
      then makeNullableOrLowCardinalityNullableSafe Demo.collaborators Demo.DataTypeUInt64
      else Demo.DataTypeUInt64.
Proof.
  eexists. split; [reflexivity|].
  exact (wrap_decided_on_head_type Demo.collaborators "Array(String).size0"
           Demo.with_instance true Demo.DataTypeArrayOfString
           (None, {| serialization := getDefaultSerialization Demo.DataTypeArrayOfString;
                     type := Demo.DataTypeArrayOfString;
                     column := None |})
           {| serialization := SerializationOf "Serialization(Array(String)).size0";
              type := Demo.DataTypeUInt64;
              column := None |}
           _ eq_refl ltac:(discriminate) ltac:(discriminate) eq_refl eq_refl eq_refl).
Defined.

Lemma resize_fill_values n x :
  values (resize_fill ColumnUInt8_create n x) = replicate n x.
Proof. unfold resize_fill. simpl. by rewrite take_nil, Nat.sub_0_r. Qed.

Lemma insertManyDefaults_values t n :
  values (insertManyDefaults (createColumn t) n) = replicate n (getDefault t).
Proof. reflexivity. Qed.

(** C4: with an instance that holds no variant named after the head type, a
    [null] remainder yields a [UInt8] column of ones and any other resolved
    path a column of defaults of the resolved semantic type, both with one
    row per row of the instance.  With a [null] or an empty remainder the
    resolution does return. *)
Theorem unobserved_type_column E path data throw_if_null instance T :
  column data = Some (ColumnOfDynamic instance) ->
  tryGet E (splitName E path).1 = Some T ->
  variant_name_to_discriminator (getVariantInfo instance) !! getName T = None ->
  ((splitName E path).2 = "null" \/ (splitName E path).2 = "" ->
   exists res, getDynamicSubcolumnData E path data throw_if_null = Ok (Some res)) /\
  (forall res,
     getDynamicSubcolumnData E path data throw_if_null = Ok (Some res) ->
     exists c,
       column res = Some (ColumnPlain c) /\
       length (values c) = size (ColumnOfDynamic instance) /\
       ((splitName E path).2 = "null" ->
        c = resize_fill ColumnUInt8_create (size (ColumnOfDynamic instance)) (FieldUInt64 1) /\
        values c = replicate (size (ColumnOfDynamic instance)) (FieldUInt64 1)) /\
       ((splitName E path).2 <> "null" ->
        values c = replicate (size (ColumnOfDynamic instance)) (getDefault (type res)))).
Proof.
  unfold getDynamicSubcolumnData.
  destruct (splitName E path) as [head tail]. cbn [fst snd].
  intros Hcolumn -> Hvariant.
  unfold tentative, materialize. rewrite Hcolumn. cbn [assert_cast_ColumnDynamic bind].
  rewrite Hvariant. cbn [bind]. split.
  - intros [-> | ->]; cbn [descend bind]; eauto.
  - intros res.
    destruct (descend _ _ _ _) as [[nested|]| |]; [|done..]. cbn [bind].
    destruct (String.eqb_spec tail "null") as [->|Hnull]; cbn [negb andb].
    + intros [= <-]. eexists. split; [reflexivity|].
      rewrite resize_fill_values, length_replicate. done.
    + intros [= <-]. eexists. split; [reflexivity|].
      rewrite insertManyDefaults_values, length_replicate. done.
Qed.

Lemma unobserved_type_column_witness :
  (exists res c,
     Demo.resolve "Float64" Demo.with_instance true = Ok (Some res) /\
     column res = Some (ColumnPlain c) /\
     length (values c) = 5%nat /\
     values c = replicate 5 (getDefault (type res))) /\
  (exists res c,
     Demo.resolve "Float64.null" Demo.with_instance true = Ok (Some res) /\
     column res = Some (ColumnPlain c) /\
     length (values c) = 5%nat /\
     values c = replicate 5 (FieldUInt64 1)).
Proof.
  split.
  - destruct (unobserved_type_column Demo.collaborators "Float64" Demo.with_instance
                true Demo.instance Demo.DataTypeFloat64 eq_refl eq_refl eq_refl)
      as [_ Hcolumn].
    eexists.
    destruct (Hcolumn _ eq_refl) as (c & Hc & Hlength & _ & Hdefault).
    exists c. split; [reflexivity|]. split; [exact Hc|].
    split; [exact Hlength|]. apply Hdefault. discriminate.
  - destruct (unobserved_type_column Demo.collaborators "Float64.null" Demo.with_instance
                true Demo.instance Demo.DataTypeFloat64 eq_refl eq_refl eq_refl)
      as [_ Hcolumn].
    eexists.
    destruct (Hcolumn _ eq_refl) as (c & Hc & Hlength & Hones & _).
    exists c. split; [reflexivity|]. split; [exact Hc|].
    split; [exact Hlength|]. by apply Hones.
Defined.

(** The demo creators answer with one row per local discriminator. *)
Lemma expand_length locals local default stored :
  length (Demo.expand locals local default stored) = length locals.
Proof.
  revert stored. induction locals as [|d locals IH]; intros stored; simpl; [done|].
  destruct (d =? local); [destruct stored|]; simpl; by rewrite IH.
Qed.

Lemma demo_creators_sized : creators_sized Demo.collaborators.
Proof.
  intros locals name global local prev out. split.
  - simpl. intros [= <-]. eexists. split; [done|]. simpl. by rewrite length_fmap.
  - intros make_nullable. simpl.
    destruct prev as [[c|]|]; [|done..].
    intros [= <-]. eexists. split; [done|]. simpl. apply expand_length.
Qed.

Lemma demo_nested_resolver_needs_column :
  nested_resolver_needs_column Demo.collaborators.
Proof.
  intros name data throw_if_null res Hcolumn. simpl.
  unfold Demo.generic_getSubcolumnData.
  destruct (_ && _).
  - intros [= <-]. simpl. by rewrite Hcolumn.
  - by destruct throw_if_null.
Qed.

Lemma size_plain c : size (ColumnPlain c) = length (values c).
Proof. reflexivity. Qed.

Section Materialization.

Variable E : Collaborators.
Hypothesis Hcreators : creators_sized E.
Hypothesis Hnested : nested_resolver_needs_column E.

Lemma materialize_column data instance discriminator is_null make_nullable res res' :
  column data = Some instance ->
  materialize E data discriminator is_null make_nullable res = Ok res' ->
  exists c, column res' = Some c /\ size c = size instance.
Proof using Hcreators.
  unfold materialize. intros ->.
  destruct discriminator as [discriminator|].
  - destruct instance as [plain|dynamic]; [done|]. cbn [assert_cast_ColumnDynamic bind].
    destruct (create_column _ _) as [created| |] eqn:Hcreated; [|done..].
    cbn [bind]. intros [= <-].
    destruct is_null.
    + by apply Hcreators in Hcreated as (c & -> & Hsize); eauto.
    + by eapply Hcreators in Hcreated as (c & -> & Hsize); eauto.
  - destruct is_null; intros [= <-]; eexists; (split; [reflexivity|]);
      rewrite size_plain.
    + by rewrite resize_fill_values, length_replicate.
    + by rewrite insertManyDefaults_values, length_replicate.
Qed.

Lemma descend_no_column tail res throw_if_null res' :
  column res = None ->
  descend E tail res throw_if_null = Ok (Some res') ->
  column res' = None.
Proof using Hnested.
  unfold descend. intros Hcolumn.
  destruct (tail =? "null")%string; [by intros [= <-]|].
  destruct (negb _); [by apply Hnested|by intros [= <-]].
Qed.

End Materialization.

(** C8: provided the subcolumn creators return one row per local
    discriminator and the generic nested resolver extracts no column from a
    descriptor without one, a returned descriptor holds a column exactly when
    the call was given an instance column, and that column has as many rows
    as the instance. *)
Theorem column_present_iff_instance E path data throw_if_null res :
  creators_sized E ->
  nested_resolver_needs_column E ->
  getDynamicSubcolumnData E path data throw_if_null = Ok (Some res) ->
  (is_Some (column res) <-> is_Some (column data)) /\
  (forall c instance,
     column res = Some c -> column data = Some instance -> size c = size instance).
Proof.
  intros Hcreators Hnested. unfold getDynamicSubcolumnData.
  destruct (splitName E path) as [head tail].
  destruct (tryGet E head) as [T|]; [|by destruct throw_if_null].
  destruct (tentative T data) as [[discriminator tentative_res]| |] eqn:Hten; [|done..].
  cbn [bind].
  destruct (descend _ _ _ _) as [[nested|]| |] eqn:Hdescend; [|done..]. cbn [bind].
  destruct (materialize _ _ _ _ _ _) as [res'| |] eqn:Hmat; [|done..]. cbn [bind].
  intros [= <-].
  destruct (column data) as [instance|] eqn:Hcolumn.
  - destruct (materialize_column E Hcreators _ _ _ _ _ _ _ Hcolumn Hmat)
      as (c & Hc & Hsize).
    rewrite Hc. split; [split; eauto|].
    by intros ? ? [= <-] [= <-].
  - rewrite materialize_no_instance in Hmat by done. injection Hmat as <-.
    rewrite tentative_no_instance in Hten by done. injection Hten as <- <-.
    assert (column nested = None) as Hnone
        by (eapply (descend_no_column E Hnested); [|exact Hdescend]; done).
    match goal with |- context [if ?b then _ else _] => destruct b end;
      cbn [column set_type set_serialization]; rewrite Hnone;
      (split; [split; intros [x Hx]; discriminate Hx|]);
      intros c instance Hc; discriminate Hc.
Qed.

Lemma column_present_iff_instance_witness :
  (exists res,
     Demo.resolve "Int64" Demo.with_instance true = Ok (Some res) /\
     (is_Some (column res) <-> is_Some (column Demo.with_instance)) /\
     (forall c instance,
        column res = Some c -> column Demo.with_instance = Some instance ->
        size c = size instance)) /\
  (exists res,
     Demo.resolve "Array(String).size0" Demo.without_instance true = Ok (Some res) /\
     (is_Some (column res) <-> is_Some (column Demo.without_instance)) /\
     (forall c instance,
        column res = Some c -> column Demo.without_instance = Some instance ->
        size c = size instance)).
Proof.
  split.
  - eexists. split; [reflexivity|].
    exact (column_present_iff_instance Demo.collaborators "Int64" Demo.with_instance
             true _ demo_creators_sized demo_nested_resolver_needs_column eq_refl).
  - eexists. split; [reflexivity|].
    exact (column_present_iff_instance Demo.collaborators "Array(String).size0"
             Demo.without_instance true _ demo_creators_sized
             demo_nested_resolver_needs_column eq_refl).
Defined.

(** C9: the outcome of a resolution is a function of the path, the instance
    column and the mode alone: two calls that agree on these, whatever else
    their input descriptors hold, end the same way, and when they return a
    descriptor it is the same descriptor (same semantic type, same
    serialization, same column). *)
Theorem resolution_is_deterministic E path data1 data2 throw_if_null :
  column data1 = column data2 ->
  getDynamicSubcolumnData E path data1 throw_if_null
  = getDynamicSubcolumnData E path data2 throw_if_null.
Proof.
  intros Hcolumn. unfold getDynamicSubcolumnData.
  destruct (splitName E path) as [head tail].
  destruct (tryGet E head) as [T|]; [|done].
  unfold tentative, materialize. by rewrite Hcolumn.
Qed.

Lemma resolution_is_deterministic_witness :
  Demo.resolve "String" Demo.with_instance false
  = Demo.resolve "String"
      {| serialization := SerializationOf "SerializationDynamic(max_types=3)";
         type := DataTypeUInt8;
         column := Some (ColumnOfDynamic Demo.instance) |}
      false.
Proof.
  exact (resolution_is_deterministic Demo.collaborators "String" Demo.with_instance
           _ false eq_refl).
Defined.

(** * Further properties of the declaration *)

Lemma create_from_literal_Throw rhs code :
  create_from_literal rhs = Throw code -> code = UNEXPECTED_AST_STRUCTURE.
Proof.
  destruct (create_from_literal_cases rhs) as [(n & -> & Hn)| -> ].
  - by rewrite (create_from_literal_in_range n Hn).
  - by intros [= <-].
Qed.

Lemma create_from_literal_defined rhs : create_from_literal rhs <> Undefined.
Proof.
  destruct (create_from_literal_cases rhs) as [(n & -> & Hn)| -> ]; [|done].
  by rewrite (create_from_literal_in_range n Hn).
Qed.

(** X1: the creator returns a descriptor in exactly two situations: there
    is no argument (null or empty list) and the descriptor carries the
    default bound, or the single argument is [equals] over the identifier
    [max_types] and an unsigned literal [n] between 1 and 255 (any further
    operand being ignored) and the descriptor carries [n]. *)
Theorem create_returns_iff DEFAULT arguments t :
  create DEFAULT arguments = Ok t <->
  ((arguments = None \/ exists args, arguments = Some args /\ children args = []) /\
   t = {| max_dynamic_types := DEFAULT |}) \/
  (exists args n,
     arguments = Some args /\ declares_bound args n /\ 1 <= n <= 255 /\
     t = {| max_dynamic_types := n |}).
Proof.
  split.
  - unfold create. destruct arguments as [args|]; [|intros [= <-]; left; eauto].
    destruct (children args) as [|child [|second others]] eqn:Hchildren;
      [intros [= <-]; left; eauto| |done].
    destruct child as [|name fn_arguments| | |]; try done. cbn [as_ASTFunction].
    destruct (String.eqb_spec name "equals") as [->|_]; [|done]. cbn [negb].
    destruct fn_arguments as [operands|]; [|done]. cbn [deref bind].
    unfold at_index.
    destruct (children operands) as [|lhs [|rhs extra]] eqn:Hoperands;
      [done| |]; cbn [lookup list_lookup deref bind];
      (destruct lhs as [| |ident| |]; [done|done| |done|done]);
      cbn [as_ASTIdentifier deref bind];
      (destruct (String.eqb_spec ident "max_types") as [->|_]; [|done]);
      cbn [negb]; [done|].
    intros Hrhs.
    destruct (create_from_literal_cases rhs) as [(n & -> & Hn)|Hthrow]; [|congruence].
    rewrite (create_from_literal_in_range n Hn) in Hrhs. injection Hrhs as <-.
    right. exists args, n. split; [done|]. split; [|done].
    exists operands, extra. by rewrite Hoperands.
  - intros [[[->|(args & -> & Hchildren)] ->]
           |(args & n & -> & (operands & extra & Hchildren & Hoperands) & Hn & ->)].
    + done.
    + unfold create. by rewrite Hchildren.
    + unfold create. rewrite Hchildren. cbn. rewrite Hoperands. cbn.
      by apply create_from_literal_in_range.
Qed.

(** X2: the creator throws nothing but its two declared codes (the
    [safeGet] of line 74 is guarded by the type test before it and never
    throws), and the arity code is thrown exactly on two or more arguments,
    whatever they are. *)
Theorem create_error_codes DEFAULT arguments :
  (forall code, create DEFAULT arguments = Throw code -> DeclarationSyntaxError code) /\
  (create DEFAULT arguments = Throw NUMBER_OF_ARGUMENTS_DOESNT_MATCH <->
   exists args, arguments = Some args /\ (2 <= length (children args))%nat).
Proof.
  assert (Hone : forall args child code,
             arguments = Some args -> children args = [child] ->
             create DEFAULT arguments = Throw code ->
             code = UNEXPECTED_AST_STRUCTURE).
  { intros args child code -> Hchildren. unfold create. rewrite Hchildren.
    unfold bind, at_index, deref. intros H.
    repeat (case_match; simplify_eq/=; try done).
    by eapply create_from_literal_Throw. }
  split.
  - intros code Hcode. destruct arguments as [args|]; [|done].
    destruct (children args) as [|child [|second others]] eqn:Hchildren.
    + unfold create in Hcode. by rewrite Hchildren in Hcode.
    + right. by eapply Hone.
    + unfold create in Hcode. rewrite Hchildren in Hcode. left. congruence.
  - split.
    + intros Hcode. destruct arguments as [args|]; [|done]. exists args. split; [done|].
      destruct (children args) as [|child [|second others]] eqn:Hchildren.
      * unfold create in Hcode. by rewrite Hchildren in Hcode.
      * by specialize (Hone args child _ eq_refl Hchildren Hcode).
      * simpl. lia.
    + intros (args & -> & Hlength). unfold create.
      destruct (children args) as [|child [|second others]]; simpl in Hlength; [lia..|done].
Qed.

(** X3: the creator has undefined behaviour exactly on a single [equals]
    argument that has no operand list, no operand, a left operand that is not
    an identifier, or the identifier [max_types] as its only operand; on every
    other argument list it returns or throws. *)
Theorem create_undefined_iff DEFAULT arguments :
  create DEFAULT arguments = Undefined <->
  exists args fn_arguments,
    arguments = Some args /\
    children args = [ASTFunction "equals" fn_arguments] /\
    dereferences_null_or_past_end fn_arguments.
Proof.
  split.
  - unfold create. destruct arguments as [args|]; [|done].
    destruct (children args) as [|child [|second others]] eqn:Hchildren; [done| |done].
    destruct child as [|name fn_arguments| | |]; try done. cbn [as_ASTFunction].
    destruct (String.eqb_spec name "equals") as [->|_]; [|done]. cbn [negb].
    intros Hundefined. exists args, fn_arguments. split; [done|]. split; [done|].
    destruct fn_arguments as [operands|]; [|by left]. right.
    exists operands. split; [done|]. cbn [deref bind] in Hundefined.
    unfold at_index in Hundefined.
    destruct (children operands) as [|lhs rest] eqn:Hoperands; [by left|right].
    cbn [lookup list_lookup deref bind] in Hundefined.
    destruct (as_ASTIdentifier lhs) as [ident|] eqn:Hlhs; [|left; eauto].
    right. cbn [deref bind] in Hundefined.
    destruct (String.eqb_spec ident "max_types") as [->|_]; [|done].
    cbn [negb] in Hundefined.
    destruct rest as [|rhs extra]; cbn [lookup list_lookup deref bind] in Hundefined.
    + by destruct lhs; simplify_eq/=.
    + by apply create_from_literal_defined in Hundefined.
  - intros (args & fn_arguments & -> & Hchildren & Hshape).
    unfold create. rewrite Hchildren. cbn.
    destruct Hshape as [->|(operands & -> & Hoperands)]; [done|]. cbn.
    destruct Hoperands as [->|[(lhs & rest & -> & Hlhs)| ->]]; [done| |done].
    cbn. by rewrite Hlhs.
Qed.

(** The parser reads every printed name back as the argument list that
    spells its bound. *)
Lemma parseDeclaration_doGetName DEFAULT t :
  parseDeclaration (doGetName DEFAULT t)
  = Some (if max_dynamic_types t =? DEFAULT then None
          else max_types_equals (max_dynamic_types t)).
Proof.
  unfold doGetName. destruct (max_dynamic_types t =? DEFAULT); [done|].
  apply parseDeclaration_printed.
Qed.

(** X4: the printed name identifies the descriptor: two descriptors print
    the same name exactly when they carry the same bound, whatever the
    default is. *)
Theorem doGetName_injective DEFAULT t1 t2 :
  doGetName DEFAULT t1 = doGetName DEFAULT t2 <-> t1 = t2.
Proof.
  split; [|by intros ->].
  intros Hname.
  pose proof (parseDeclaration_doGetName DEFAULT t1) as H1.
  pose proof (parseDeclaration_doGetName DEFAULT t2) as H2.
  rewrite Hname, H2 in H1. clear Hname H2.
  destruct t1 as [b1], t2 as [b2]. simpl in H1.
  destruct (N.eqb_spec b1 DEFAULT) as [Hb1|Hb1], (N.eqb_spec b2 DEFAULT) as [Hb2|Hb2];
    try done.
  - congruence.
  - by injection H1 as ->.
Qed.

(** X5: when the default lies between 1 and 255, spelling it out is accepted
    and indistinguishable from giving no argument: the same descriptor comes
    back and it prints as plain ["Dynamic"]. *)
Theorem create_explicit_default DEFAULT :
  1 <= DEFAULT <= 255 ->
  create DEFAULT (max_types_equals DEFAULT) = create DEFAULT None /\
  (forall t, create DEFAULT (max_types_equals DEFAULT) = Ok t ->
             doGetName DEFAULT t = "Dynamic").
Proof.
  intros Hdefault. rewrite create_max_types_equals.
  rewrite (create_from_literal_in_range DEFAULT Hdefault). split; [done|].
  intros t [= <-]. unfold doGetName. simpl. by rewrite N.eqb_refl.
Qed.

Lemma create_explicit_default_witness :
  create 32 (max_types_equals 32) = create 32 None /\
  (forall t, create 32 (max_types_equals 32) = Ok t -> doGetName 32 t = "Dynamic").
Proof. apply create_explicit_default. lia. Defined.

(** * Further properties of the resolver *)

Example resolve_observed_array_sizes :
  (column <$> returned (Demo.resolve "Array(String).size0" with_arrays_instance true))
  = Some (Some (ColumnPlain
       {| default_value := FieldUInt64 0;
          values := FieldUInt64 <$> [2; 0; 0] |})).
Proof. reflexivity. Qed.

Lemma descend_empty E res throw_if_null :
  descend E "" res throw_if_null = Ok (Some res).
Proof. reflexivity. Qed.

(** With a variant of the head type in the instance, the tentative
    descriptor holds the variant's column. *)
Lemma tentative_observed T data instance discriminator :
  column data = Some (ColumnOfDynamic instance) ->
  variant_name_to_discriminator (getVariantInfo instance) !! getName T
  = Some discriminator ->
  tentative T data = Ok (Some discriminator, observed_tentative instance discriminator T).
Proof. unfold tentative. intros -> Hfound. cbn. by rewrite Hfound. Qed.

(** X6: every returned descriptor carries a [SerializationDynamicElement]
    tagged with the name of the registered head type and with the null-map
    flag set exactly when the remainder is [null]; it wraps the head type's
    default serialization when there is no nested remainder, and the
    serialization the generic resolver returned otherwise. *)
Theorem serialization_tagged E path data throw_if_null res :
  getDynamicSubcolumnData E path data throw_if_null = Ok (Some res) ->
  exists T inner,
    tryGet E (splitName E path).1 = Some T /\
    serialization res
    = SerializationDynamicElement inner (getName T)
        (String.eqb (splitName E path).2 "null") /\
    ((splitName E path).2 = "null" \/ (splitName E path).2 = "" ->
     inner = getDefaultSerialization T) /\
    ((splitName E path).2 <> "null" -> (splitName E path).2 <> "" ->
     exists found nested,
       tentative T data = Ok found /\
       getSubcolumnData E (splitName E path).2 found.2 throw_if_null = Ok (Some nested) /\
       inner = serialization nested).
Proof.
  unfold getDynamicSubcolumnData.
  destruct (splitName E path) as [head tail]. cbn [fst snd].
  destruct (tryGet E head) as [T|]; [|by destruct throw_if_null].
  destruct (tentative T data) as [[discriminator tentative_res]| |] eqn:Hten; [|done..].
  cbn [bind].
  destruct (descend _ _ _ _) as [[nested|]| |] eqn:Hdescend; [|done..]. cbn [bind].
  destruct (materialize _ _ _ _ _ _) as [res'| |] eqn:Hmat; [|done..]. cbn [bind].
  intros [= <-]. apply materialize_keeps in Hmat as [_ Hser].
  exists T, (serialization nested). split; [done|]. split.
  { rewrite Hser. by destruct (negb _ && _). }
  apply tentative_type in Hten as Htentative. destruct Htentative as [_ Hdefault].
  cbn [snd] in Hdefault. split.
  - intros [-> | ->].
    + rewrite descend_null in Hdescend. by injection Hdescend as <-.
    + rewrite descend_empty in Hdescend. by injection Hdescend as <-.
  - intros Hnull Hempty. rewrite descend_nested in Hdescend by done.
    by exists (discriminator, tentative_res), nested.
Qed.

Lemma serialization_tagged_witness :
  exists T inner,
    tryGet Demo.collaborators "Array(String)" = Some T /\
    (serialization <$> returned (Demo.resolve "Array(String).size0" with_arrays_instance true))
    = Some (SerializationDynamicElement inner (getName T) false) /\
    getName T = "Array(String)".
Proof.
  destruct (serialization_tagged Demo.collaborators "Array(String).size0"
              with_arrays_instance true _ eq_refl)
    as (T & inner & HT & Hser & _).
  exists T, inner. split; [exact HT|]. split; [exact (f_equal Some Hser)|].
  by injection HT as <-.
Defined.

(** X7: an outcome of the generic nested resolver that is not a descriptor
    (an exception, a null pointer, undefined behaviour) is the outcome of the
    whole resolution, in either mode. *)
Theorem nested_outcome_propagates E path data throw_if_null T found outcome :
  tryGet E (splitName E path).1 = Some T ->
  (splitName E path).2 <> "" ->
  (splitName E path).2 <> "null" ->
  tentative T data = Ok found ->
  getSubcolumnData E (splitName E path).2 found.2 throw_if_null = outcome ->
  (forall nested, outcome <> Ok (Some nested)) ->
  getDynamicSubcolumnData E path data throw_if_null = outcome.
Proof.
  unfold getDynamicSubcolumnData.
  destruct (splitName E path) as [head tail]. cbn [fst snd].
  intros -> Hempty Hnull -> Hnested Hnone.
  destruct found as [discriminator tentative_res]. cbn [bind snd] in *.
  rewrite descend_nested, Hnested by done.
  destruct outcome as [[nested|]| |]; [|done..]. by destruct (Hnone nested).
Qed.

Lemma nested_outcome_propagates_witness :
  Demo.resolve "Int64.size0" Demo.with_instance true = Throw ILLEGAL_COLUMN /\
  Demo.resolve "Int64.size0" Demo.with_instance false = Ok None.
Proof.
  split.
  - exact (nested_outcome_propagates Demo.collaborators "Int64.size0"
             Demo.with_instance true Demo.DataTypeInt64
             (Some 0, observed_tentative Demo.instance 0 Demo.DataTypeInt64)
             (Throw ILLEGAL_COLUMN)
             eq_refl ltac:(discriminate) ltac:(discriminate) eq_refl eq_refl
             ltac:(discriminate)).
  - exact (nested_outcome_propagates Demo.collaborators "Int64.size0"
             Demo.with_instance false Demo.DataTypeInt64
             (Some 0, observed_tentative Demo.instance 0 Demo.DataTypeInt64)
             (Ok None)
             eq_refl ltac:(discriminate) ltac:(discriminate) eq_refl eq_refl
             ltac:(discriminate)).
Defined.

(** X8: when the instance holds a variant named after the head type and the
    path has no nested remainder, the resolution is the creator's call: the
    null-map creator for [null], the variant creator (with the head type's
    nullable flag) otherwise, built from the instance's local discriminators,
    the global discriminator of [VariantInfo] and its local translation, and
    applied to the variant's own column.  What the creator returns is the
    column of the descriptor; what it throws is thrown. *)
Theorem observed_type_resolution E path data throw_if_null instance T discriminator :
  column data = Some (ColumnOfDynamic instance) ->
  tryGet E (splitName E path).1 = Some T ->
  variant_name_to_discriminator (getVariantInfo instance) !! getName T
  = Some discriminator ->
  (splitName E path).2 = "" \/ (splitName E path).2 = "null" ->
  getDynamicSubcolumnData E path data throw_if_null
  = (created <- create_column
                  (creator_for E instance discriminator
                     (String.eqb (splitName E path).2 "null") T)
                  (column (observed_tentative instance discriminator T)) ;;
     Ok (Some {| serialization :=
                   SerializationDynamicElement (getDefaultSerialization T) (getName T)
                     (String.eqb (splitName E path).2 "null");
                 type := if String.eqb (splitName E path).2 "null"
                         then DataTypeUInt8 else wrapped_type E T T;
                 column := created |})).
Proof.
  unfold getDynamicSubcolumnData.
  destruct (splitName E path) as [head tail]. cbn [fst snd].
  intros Hcolumn -> Hfound Htail.
  rewrite (tentative_observed T data instance discriminator Hcolumn Hfound).
  cbn [bind]. unfold materialize. rewrite Hcolumn.
  cbn [assert_cast_ColumnDynamic bind].
  unfold creator_for, wrapped_type, make_subcolumn_nullable.
  destruct Htail as [-> | ->]; cbn [descend String.eqb Ascii.eqb bind negb andb].
  - destruct (canBeInsideNullable T || lowCardinality T); cbn;
      by destruct (create_column _ _).
  - cbn. by destruct (create_column _ _).
Qed.

Lemma observed_type_resolution_witness :
  Demo.resolve "Int64" Demo.with_instance true
  = (created <- create_column
                  (creator_for Demo.collaborators Demo.instance 0 false Demo.DataTypeInt64)
                  (column (observed_tentative Demo.instance 0 Demo.DataTypeInt64)) ;;
     Ok (Some {| serialization :=
                   SerializationDynamicElement
                     (getDefaultSerialization Demo.DataTypeInt64) "Int64" false;
                 type := wrapped_type Demo.collaborators Demo.DataTypeInt64
                           Demo.DataTypeInt64;
                 column := created |})).
Proof.
  exact (observed_type_resolution Demo.collaborators "Int64" Demo.with_instance true
           Demo.instance Demo.DataTypeInt64 0 eq_refl eq_refl eq_refl
           (or_introl eq_refl)).
Defined.

(** X9: with a nested remainder and a variant of the head type in the
    instance, the generic resolver is given the head type, its default
    serialization and the variant's own column; the variant creator is then
    applied to the column the generic resolver returned, and the descriptor
    takes the nested serialization (tagged) and the nested type (wrapped on
    the head type's flag). *)
Theorem observed_nested_resolution E path data throw_if_null instance T
    discriminator nested :
  column data = Some (ColumnOfDynamic instance) ->
  tryGet E (splitName E path).1 = Some T ->
  variant_name_to_discriminator (getVariantInfo instance) !! getName T
  = Some discriminator ->
  (splitName E path).2 <> "" ->
  (splitName E path).2 <> "null" ->
  getSubcolumnData E (splitName E path).2
    (observed_tentative instance discriminator T) throw_if_null
  = Ok (Some nested) ->
  getDynamicSubcolumnData E path data throw_if_null
  = (created <- create_column (creator_for E instance discriminator false T)
                  (column nested) ;;
     Ok (Some {| serialization :=
                   SerializationDynamicElement (serialization nested) (getName T) false;
                 type := wrapped_type E T (type nested);
                 column := created |})).
Proof.
  unfold getDynamicSubcolumnData.
  destruct (splitName E path) as [head tail]. cbn [fst snd].
  intros Hcolumn -> Hfound Hempty Hnull Hnested.
  rewrite (tentative_observed T data instance discriminator Hcolumn Hfound).
  cbn [bind]. rewrite descend_nested, Hnested by done. cbn [bind].
  destruct (String.eqb_spec tail "null") as [|_]; [done|]. cbn [negb andb].
  unfold materialize. rewrite Hcolumn. cbn [assert_cast_ColumnDynamic bind].
  unfold creator_for, wrapped_type, make_subcolumn_nullable.
  destruct (canBeInsideNullable T || lowCardinality T); cbn;
    by destruct (create_column _ _).
Qed.

Lemma observed_nested_resolution_witness :
  Demo.resolve "Array(String).size0" with_arrays_instance true
  = Ok (Some {| serialization :=
                  SerializationDynamicElement
                    (SerializationOf "Serialization(Array(String)).size0")
                    "Array(String)" false;
                type := Demo.DataTypeUInt64;
                column := Some (ColumnPlain
                                  {| default_value := FieldUInt64 0;
                                     values := FieldUInt64 <$> [2; 0; 0] |}) |}).
Proof.
  exact (observed_nested_resolution Demo.collaborators "Array(String).size0"
           with_arrays_instance true arrays_instance Demo.DataTypeArrayOfString 0
           {| serialization := SerializationOf "Serialization(Array(String)).size0";
              type := Demo.DataTypeUInt64;
              column := Some (ColumnPlain
                                {| default_value := FieldUInt64 0;
                                   values := FieldUInt64 <$> [2; 0] |}) |}
           eq_refl eq_refl eq_refl ltac:(discriminate) ltac:(discriminate) eq_refl).
Defined.

(** X10: for a path without nested remainder, the type and the
    serialization do not depend on the instance: whenever the resolution
    against an instance returns a descriptor, the resolution without a column
    returns the same descriptor less its column. *)
Theorem metadata_independent_of_instance E path data throw_if_null res :
  (splitName E path).2 = "" \/ (splitName E path).2 = "null" ->
  getDynamicSubcolumnData E path data throw_if_null = Ok (Some res) ->
  getDynamicSubcolumnData E path (set_column None data) throw_if_null
  = Ok (Some (set_column None res)).
Proof.
  unfold getDynamicSubcolumnData.
  destruct (splitName E path) as [head tail]. cbn [fst snd]. intros Htail.
  destruct (tryGet E head) as [T|]; [|by destruct throw_if_null].
  rewrite (tentative_no_instance T (set_column None data) eq_refl).
  destruct (tentative T data) as [[discriminator tentative_res]| |] eqn:Hten; [|done..].
  apply tentative_type in Hten as [Htype Hser]. cbn [snd] in Htype, Hser.
  cbn [bind].
  assert (Hdescend : forall r, descend E tail r throw_if_null
                               = Ok (Some (if String.eqb tail "null"
                                           then set_type DataTypeUInt8 r else r)))
    by (intros r; destruct Htail as [-> | ->]; reflexivity).
  rewrite !Hdescend. cbn [bind].
  rewrite (materialize_no_instance E (set_column None data) _ _ _ _ eq_refl).
  cbn [bind].
  destruct (materialize _ _ _ _ _ _) as [res'| |] eqn:Hmat; [|done..]. cbn [bind].
  intros [= <-]. apply materialize_keeps in Hmat as [Hres_type Hres_ser].
  f_equal. f_equal. unfold set_column at 1. rewrite Hres_type, Hres_ser.
  destruct tentative_res as [s t c]. cbn in Htype, Hser. subst s t.
  by destruct (String.eqb tail "null"), (canBeInsideNullable T || lowCardinality T).
Qed.

Lemma metadata_independent_of_instance_witness :
  exists res,
    Demo.resolve "String" Demo.with_instance true = Ok (Some res) /\
    getDynamicSubcolumnData Demo.collaborators "String"
      (set_column None Demo.with_instance) true
    = Ok (Some (set_column None res)).
Proof.
  eexists. split; [reflexivity|].
  exact (metadata_independent_of_instance Demo.collaborators "String"
           Demo.with_instance true _ (or_introl eq_refl) eq_refl).
Defined.








(** X13: without an instance, a registered type name alone, or followed by
    [null], always resolves, whatever the mode: to the head type wrapped on
    its own flag, or to [UInt8], with the head type's default serialization
    tagged and no column. *)
Theorem type_only_resolution E path data throw_if_null T :
  column data = None ->
  tryGet E (splitName E path).1 = Some T ->
  (splitName E path).2 = "" \/ (splitName E path).2 = "null" ->
  getDynamicSubcolumnData E path data throw_if_null
  = Ok (Some {| serialization :=
                  SerializationDynamicElement (getDefaultSerialization T) (getName T)
                    (String.eqb (splitName E path).2 "null");
                type := if String.eqb (splitName E path).2 "null"
                        then DataTypeUInt8 else wrapped_type E T T;
                column := None |}).
Proof.
  unfold getDynamicSubcolumnData.
  destruct (splitName E path) as [head tail]. cbn [fst snd].
  intros Hcolumn -> Htail. rewrite (tentative_no_instance T data Hcolumn). cbn [bind].
  unfold wrapped_type, make_subcolumn_nullable.
  destruct Htail as [-> | ->]; cbn [descend String.eqb Ascii.eqb bind negb andb].
  - destruct (canBeInsideNullable T || lowCardinality T); cbn [andb];
      by rewrite materialize_no_instance.
  - cbn. by rewrite materialize_no_instance.
Qed.

Lemma type_only_resolution_witness :
  Demo.resolve "String" Demo.without_instance false
  = Ok (Some {| serialization :=
                  SerializationDynamicElement
                    (getDefaultSerialization Demo.DataTypeString) "String" false;
                type := Demo.DataTypeNullable Demo.DataTypeString;
                column := None |}).
Proof.
  exact (type_only_resolution Demo.collaborators "String" Demo.without_instance false
           Demo.DataTypeString eq_refl eq_refl (or_introl eq_refl)).
Defined.

Lemma tentative_unobserved T data instance :
  column data = Some (ColumnOfDynamic instance) ->
  variant_name_to_discriminator (getVariantInfo instance) !! getName T = None ->
  tentative T data
  = Ok (None, {| serialization := getDefaultSerialization T; type := T; column := None |}).
Proof. unfold tentative. intros -> Hnone. cbn. by rewrite Hnone. Qed.

(** X14: for a type the instance has not observed, the instance matters
    through its row count only: two instances of the same length, neither
    holding a variant named after the head type, give the same outcome on
    every path, nested remainders included. *)
Theorem unobserved_depends_on_row_count E path data1 data2 throw_if_null
    instance1 instance2 :
  column data1 = Some (ColumnOfDynamic instance1) ->
  column data2 = Some (ColumnOfDynamic instance2) ->
  (forall T,
     tryGet E (splitName E path).1 = Some T ->
     variant_name_to_discriminator (getVariantInfo instance1) !! getName T = None /\
     variant_name_to_discriminator (getVariantInfo instance2) !! getName T = None) ->
  size (ColumnOfDynamic instance1) = size (ColumnOfDynamic instance2) ->
  getDynamicSubcolumnData E path data1 throw_if_null
  = getDynamicSubcolumnData E path data2 throw_if_null.
Proof.
  unfold getDynamicSubcolumnData.
  destruct (splitName E path) as [head tail]. cbn [fst snd].
  intros Hcolumn1 Hcolumn2 Hunobserved Hsize.
  destruct (tryGet E head) as [T|]; [|done].
  destruct (Hunobserved T eq_refl) as [Hnone1 Hnone2].
  rewrite (tentative_unobserved T data1 instance1 Hcolumn1 Hnone1).
  rewrite (tentative_unobserved T data2 instance2 Hcolumn2 Hnone2).
  cbn [bind]. destruct (descend _ _ _ _) as [[nested|]| |]; [|done..]. cbn [bind].
  unfold materialize. by rewrite Hcolumn1, Hcolumn2, Hsize.
Qed.

Lemma unobserved_depends_on_row_count_witness :
  Demo.resolve "Float64" Demo.with_instance true
  = Demo.resolve "Float64"
      (set_column (Some (ColumnOfDynamic nulls_instance)) Demo.with_instance) true.
Proof.
  apply (unobserved_depends_on_row_count Demo.collaborators "Float64"
           Demo.with_instance
           (set_column (Some (ColumnOfDynamic nulls_instance)) Demo.with_instance)
           true Demo.instance nulls_instance eq_refl eq_refl).
  - intros T [= <-]. split; reflexivity.
  - reflexivity.
Defined.
